(** * Hostel Feedback System: a shallow embedding of src/main.py

    The program is a Streamlit front end over one SQLite file.  Every
    store function of main.py opens a connection through
    [get_db_connection], runs one or more SQL statements, commits and
    closes.  We model the SQLite store as a record of tables (lists of
    rows in rowid order), each SQL statement as a function on that record
    (returning [None] where SQLite raises [sqlite3.Error]) and each Python
    function as a function from the store to an [outcome]: the Python
    return value or a raised exception, together with the store after the
    call.

    Timestamps produced by [datetime.now().isoformat()] are modelled as
    clock readings ([nat]); the caller passes the reading in.  The
    password hash [hashlib.sha256(..).hexdigest()] is kept abstract. *)

From Stdlib Require Import String List Bool Arith Lia Sorted.
From Stdlib Require OrdersEx.
Import ListNotations.
Open Scope string_scope.

Module HostelDB.

(** ** Rows of the tables created by [initialize_database] *)

Record user := mkUser {
  u_id : nat;
  u_username : string;
  u_password : string;
  u_name : string;
  u_email : string;
  u_reg_no : string;
  u_room_no : string;
  u_last_login : option nat;
  u_created_at : nat
}.

Record hostel := mkHostel { h_id : nat; h_name : string; h_location : string }.

Record room := mkRoom {
  r_id : nat; r_room_number : string; r_type : string; r_hostel_id : option nat
}.

Record guest := mkGuest {
  g_id : nat; g_name : string; g_email : string; g_user_id : option nat
}.

Record stay := mkStay {
  s_id : nat;
  s_guest_id : nat;
  s_room_id : nat;
  s_check_in_date : string;
  s_check_out_date : option string
}.

Record feedback := mkFeedback {
  fb_id : nat;
  fb_username : string;
  fb_timestamp : nat;
  fb_hostel_feedback : string;
  fb_hostel_rating : string;
  fb_mess_feedback : string;
  fb_mess_type : string;
  fb_mess_rating : string;
  fb_bathroom_feedback : string;
  fb_bathroom_rating : string;
  fb_other_comments : string;
  fb_created_at : nat
}.

Record admin_log := mkLog {
  l_id : nat; l_timestamp : nat; l_action : string; l_details : string
}.

Record db := mkDB {
  users : list user;
  hostels : list hostel;
  rooms : list room;
  guests : list guest;
  stays_in_room : list stay;
  feedbacks : list feedback;
  admin_logs : list admin_log
}.

(** The dictionaries passed by the pages: [user_data] of [register_user]
    and [feedback_data] of [submit_feedback]. *)
Record user_data := mkUserData {
  ud_name : string; ud_email : string; ud_reg_no : string; ud_room_no : string
}.

Record feedback_data := mkFeedbackData {
  fd_hostel_feedback : string;
  fd_hostel_rating : string;
  fd_mess_feedback : string;
  fd_mess_type : string;
  fd_mess_rating : string;
  fd_bathroom_feedback : string;
  fd_bathroom_rating : string;
  fd_other_comments : string
}.

(** ** SQLite semantics used by the statements *)

(** An [INTEGER PRIMARY KEY] column without AUTOINCREMENT receives one
    more than the largest rowid in the table. *)
Definition next_rowid (ids : list nat) : nat := S (fold_right Nat.max 0 ids).

(** SQLite enforces FOREIGN KEY clauses (and their ON DELETE CASCADE
    actions) only on connections that ran [PRAGMA foreign_keys = ON].
    [get_db_connection] never issues it, so every connection of the
    program has the SQLite default. *)
Definition foreign_keys : bool := false.

(** The CHECK constraints of the [feedback] table. *)
Definition rating_values : list string := ["A"; "B"; "C"; "D"; "E"].
Definition mess_type_values : list string := ["Veg"; "Non-Veg"; "Special"; "Food-Park"].

Definition member (x : string) (l : list string) : bool := existsb (String.eqb x) l.

Definition feedback_checks (f : feedback) : bool :=
  member (fb_hostel_rating f) rating_values &&
  member (fb_mess_type f) mess_type_values &&
  member (fb_mess_rating f) rating_values &&
  member (fb_bathroom_rating f) rating_values.

Definition user_exists (name : string) (d : db) : bool :=
  existsb (fun u => String.eqb (u_username u) name) (users d).

Definition set_users (d : db) (l : list user) : db :=
  mkDB l (hostels d) (rooms d) (guests d) (stays_in_room d) (feedbacks d) (admin_logs d).
Definition set_hostels (d : db) (l : list hostel) : db :=
  mkDB (users d) l (rooms d) (guests d) (stays_in_room d) (feedbacks d) (admin_logs d).
Definition set_rooms (d : db) (l : list room) : db :=
  mkDB (users d) (hostels d) l (guests d) (stays_in_room d) (feedbacks d) (admin_logs d).
Definition set_guests (d : db) (l : list guest) : db :=
  mkDB (users d) (hostels d) (rooms d) l (stays_in_room d) (feedbacks d) (admin_logs d).
Definition set_stays (d : db) (l : list stay) : db :=
  mkDB (users d) (hostels d) (rooms d) (guests d) l (feedbacks d) (admin_logs d).
Definition set_feedbacks (d : db) (l : list feedback) : db :=
  mkDB (users d) (hostels d) (rooms d) (guests d) (stays_in_room d) l (admin_logs d).
Definition set_logs (d : db) (l : list admin_log) : db :=
  mkDB (users d) (hostels d) (rooms d) (guests d) (stays_in_room d) (feedbacks d) l.

(** [SELECT username FROM users WHERE username = ? AND password = ?] *)
Definition select_user_password (name pw : string) (d : db) : bool :=
  existsb (fun u => String.eqb (u_username u) name && String.eqb (u_password u) pw) (users d).

(** [UPDATE users SET last_login = ? WHERE username = ?] *)
Definition update_last_login (name : string) (t : nat) (d : db) : db :=
  set_users d (map (fun u => if String.eqb (u_username u) name
                             then mkUser (u_id u) (u_username u) (u_password u) (u_name u)
                                    (u_email u) (u_reg_no u) (u_room_no u) (Some t)
                                    (u_created_at u)
                             else u) (users d)).

(** [INSERT INTO users (...) VALUES (...)]: the UNIQUE constraint on
    [username]; [created_at] takes its CURRENT_TIMESTAMP default. *)
Definition insert_user (name pw : string) (ud : user_data) (t : nat) (d : db)
  : option (nat * db) :=
  if user_exists name d then None
  else let id := next_rowid (map u_id (users d)) in
       Some (id, set_users d (users d ++ [mkUser id name pw (ud_name ud) (ud_email ud)
                                          (ud_reg_no ud) (ud_room_no ud) None t])).

Definition guest_row_exists (gid : nat) (d : db) : bool :=
  existsb (fun g => Nat.eqb (g_id g) gid) (guests d).
Definition room_row_exists (rid : nat) (d : db) : bool :=
  existsb (fun r => Nat.eqb (r_id r) rid) (rooms d).
Definition user_id_exists (uid : nat) (d : db) : bool :=
  existsb (fun u => Nat.eqb (u_id u) uid) (users d).
Definition hostel_row_exists (hid : nat) (d : db) : bool :=
  existsb (fun h => Nat.eqb (h_id h) hid) (hostels d).

(** [INSERT INTO guest (name, email, user_id) VALUES (?, ?, ?)] *)
Definition insert_guest (fk : bool) (name email : string) (uid : nat) (d : db) : option db :=
  if fk && negb (user_id_exists uid d) then None
  else Some (set_guests d (guests d ++
               [mkGuest (next_rowid (map g_id (guests d))) name email (Some uid)])).

(** [DELETE FROM users WHERE username = ?], with the ON DELETE CASCADE
    actions of [feedback.username], [guest.user_id] and
    [stays_in_room.guest_id] when foreign keys are enforced. *)
Definition delete_users (fk : bool) (name : string) (d : db) : db :=
  let gone_ids := map u_id (filter (fun u => String.eqb (u_username u) name) (users d)) in
  let kept := filter (fun u => negb (String.eqb (u_username u) name)) (users d) in
  if fk then
    let guest_gone (g : guest) :=
      match g_user_id g with Some i => existsb (Nat.eqb i) gone_ids | None => false end in
    let gone_guests := map g_id (filter guest_gone (guests d)) in
    mkDB kept (hostels d) (rooms d)
      (filter (fun g => negb (guest_gone g)) (guests d))
      (filter (fun s => negb (existsb (Nat.eqb (s_guest_id s)) gone_guests)) (stays_in_room d))
      (filter (fun f => negb (String.eqb (fb_username f) name)) (feedbacks d))
      (admin_logs d)
  else set_users d kept.

(** [INSERT INTO hostel (name, location) VALUES (?, ?)] *)
Definition insert_hostel (name loc : string) (d : db) : db :=
  set_hostels d (hostels d ++ [mkHostel (next_rowid (map h_id (hostels d))) name loc]).

(** [INSERT INTO room (room_number, type, hostel_id) VALUES (?, ?, ?)] *)
Definition insert_room (fk : bool) (num ty : string) (hid : nat) (d : db) : option db :=
  if fk && negb (hostel_row_exists hid d) then None
  else Some (set_rooms d (rooms d ++ [mkRoom (next_rowid (map r_id (rooms d))) num ty (Some hid)])).

(** [INSERT INTO stays_in_room (guest_id, room_id, check_in_date) VALUES (?, ?, ?)] *)
Definition insert_stay (fk : bool) (gid rid : nat) (date : string) (d : db) : option db :=
  if fk && negb (guest_row_exists gid d && room_row_exists rid d) then None
  else Some (set_stays d (stays_in_room d ++
               [mkStay (next_rowid (map s_id (stays_in_room d))) gid rid date None])).

(** [UPDATE stays_in_room SET check_out_date = ?
     WHERE guest_id = ? AND room_id = ? AND check_out_date IS NULL] *)
Definition update_checkout (gid rid : nat) (date : string) (d : db) : db :=
  set_stays d (map (fun s =>
    match s_check_out_date s with
    | None => if Nat.eqb (s_guest_id s) gid && Nat.eqb (s_room_id s) rid
              then mkStay (s_id s) (s_guest_id s) (s_room_id s) (s_check_in_date s) (Some date)
              else s
    | Some _ => s
    end) (stays_in_room d)).

(** [INSERT INTO feedback (...) VALUES (...)]: the CHECK constraints, and
    the foreign key on [username] when foreign keys are enforced. *)
Definition insert_feedback (fk : bool) (f : feedback) (d : db) : option db :=
  if negb (feedback_checks f) then None
  else if fk && negb (user_exists (fb_username f) d) then None
  else Some (set_feedbacks d (feedbacks d ++ [f])).

(** [INSERT INTO admin_logs (timestamp, action, details) VALUES (?, ?, ?)] *)
Definition insert_log (t : nat) (action details : string) (d : db) : db :=
  set_logs d (admin_logs d ++ [mkLog (next_rowid (map l_id (admin_logs d))) t action details]).

(** [DELETE FROM admin_logs] *)
Definition delete_logs (d : db) : db := set_logs d [].

(** ** Python level: [get_db_connection] and the store functions *)

Inductive py_exn := RuntimeError (msg : string) | KeyError (key : string).

(** The result of a Python call and the store after it. *)
Inductive outcome (A : Type) :=
| Returned (v : A) (d : db)
| Raised (e : py_exn) (d : db).
Arguments Returned {A} v d.
Arguments Raised {A} e d.

Definition store_of {A} (o : outcome A) : db :=
  match o with Returned _ d => d | Raised _ d => d end.

Definition result_of {A} (o : outcome A) : option A :=
  match o with Returned v _ => Some v | Raised _ _ => None end.

(** [with get_db_connection() as connection: <body>].  The body runs its
    statements on the store; [None] means a statement raised
    [sqlite3.Error].  That exception is thrown into the generator of
    [get_db_connection], whose [except sqlite3.Error] branch yields a
    second time, so [contextlib] raises [RuntimeError] instead, which the
    callers' [except sqlite3.Error] clauses do not catch.  Nothing was
    committed, so the store is left as before the call. *)
Definition with_connection {A} (body : db -> option (A * db)) (d : db) : outcome A :=
  match body d with
  | Some (v, d') => Returned v d'
  | None => Raised (RuntimeError "generator didn't stop after throw()") d
  end.

Section Functions.

(** [hash_password p = hashlib.sha256(p.encode()).hexdigest()] *)
Variable hash_password : string -> string.

(** [authenticate_user(username, password)]; [now] is the reading of
    [datetime.now()] taken by the UPDATE. *)
Definition authenticate_user (username password : string) (now : nat) (d : db)
  : outcome bool :=
  with_connection (fun d =>
    if select_user_password username (hash_password password) d
    then Some (true, update_last_login username now d)
    else Some (false, d)) d.

(** [register_user(username, password, user_data)] *)
Definition register_user (username password : string) (ud : user_data) (now : nat) (d : db)
  : outcome (bool * string) :=
  with_connection (fun d =>
    if user_exists username d then Some ((false, "Username already exists"), d)
    else match insert_user username (hash_password password) ud now d with
         | None => None
         | Some (user_id, d1) =>
             match insert_guest foreign_keys (ud_name ud) (ud_email ud) user_id d1 with
             | None => None
             | Some d2 => Some ((true, "Registration successful"), d2)
             end
         end) d.

End Functions.

(** [delete_user(username)] *)
Definition delete_user (username : string) (d : db) : outcome bool :=
  with_connection (fun d => Some (true, delete_users foreign_keys username d)) d.

(** [add_hostel(name, location)] *)
Definition add_hostel (name location : string) (d : db) : outcome bool :=
  with_connection (fun d => Some (true, insert_hostel name location d)) d.

(** [add_room(room_number, room_type, hostel_id)] *)
Definition add_room (room_number room_type : string) (hostel_id : nat) (d : db) : outcome bool :=
  with_connection (fun d =>
    option_map (fun d' => (true, d')) (insert_room foreign_keys room_number room_type hostel_id d)) d.

(** [assign_room_to_guest(guest_id, room_id, check_in_date)] *)
Definition assign_room_to_guest (guest_id room_id : nat) (check_in_date : string) (d : db)
  : outcome bool :=
  with_connection (fun d =>
    option_map (fun d' => (true, d')) (insert_stay foreign_keys guest_id room_id check_in_date d)) d.

(** [checkout_guest(guest_id, room_id, check_out_date)] *)
Definition checkout_guest (guest_id room_id : nat) (check_out_date : string) (d : db)
  : outcome bool :=
  with_connection (fun d => Some (true, update_checkout guest_id room_id check_out_date d)) d.

(** The row built by [submit_feedback]: [id] is the next rowid, the
    [timestamp] column gets [datetime.now()] and [created_at] its
    CURRENT_TIMESTAMP default, read at the same instant. *)
Definition feedback_row (username : string) (fd : feedback_data) (now : nat) (d : db) : feedback :=
  mkFeedback (next_rowid (map fb_id (feedbacks d))) username now
    (fd_hostel_feedback fd) (fd_hostel_rating fd) (fd_mess_feedback fd) (fd_mess_type fd)
    (fd_mess_rating fd) (fd_bathroom_feedback fd) (fd_bathroom_rating fd)
    (fd_other_comments fd) now.

(** [submit_feedback(username, feedback_data)] *)
Definition submit_feedback (username : string) (fd : feedback_data) (now : nat) (d : db)
  : outcome bool :=
  with_connection (fun d =>
    option_map (fun d' => (true, d'))
      (insert_feedback foreign_keys (feedback_row username fd now d) d)) d.

(** [clear_admin_logs()] *)
Definition clear_admin_logs (d : db) : outcome bool :=
  with_connection (fun d => Some (true, delete_logs d)) d.

(** [log_admin_action(action, details)]: returns [None]. *)
Definition log_admin_action (action details : string) (now : nat) (d : db) : outcome unit :=
  with_connection (fun d => Some (tt, insert_log now action details d)) d.

(** ** Sessions and pages *)

(** [st.session_state]: [logged_in], [current_user], [is_admin]. *)
Record session := mkSession {
  logged_in : bool; current_user : option string; is_admin : bool
}.

(** What a page shows: an [st.warning] that ends the page, or the page
    drawn to its end. *)
Inductive page_out := Warning (msg : string) | Rendered.

(** Sequencing of Python statements: an exception skips the rest. *)
Definition py_seq {A B} (o : outcome A) (k : A -> db -> outcome B) : outcome B :=
  match o with
  | Returned v d => k v d
  | Raised e d => Raised e d
  end.

(** A submission of the Guest Management page during one run.  The
    forms turn the selected labels into ids from the rows the page has
    read ([guest_options], [room_options], [checkout_options], and the
    first row of [rooms_data] with the selected room number); the
    submission carries the labels with those ids.  The ids are taken as
    the integers they hold: how [sqlite3] binds a pandas value is not
    modelled. *)
Inductive guest_form :=
| NoGuestForm
| AssignRoomForm (selected_guest selected_room : string) (guest_id room_id : nat)
    (check_in_date : string)
| CheckoutForm (selected_checkout : string) (guest_id room_id : nat) (checkout_date : string).

(** The pages of the admin menu, each guarded by [is_admin].  The
    arguments are the widgets the admin acted on during the run: the
    user selected when "Delete User" is pressed, whether "Clear All Logs"
    is pressed, the fields of the "Add Hostel" form (name, location) and
    of the "Add Room" form (room number, type, selected hostel name) when
    it is submitted, the Guest Management submission. *)
Inductive admin_request :=
| AdminDashboard
| HostelManagement (add_hostel_form : option (string * string))
| RoomManagement (add_room_form : option (string * string * string))
| GuestManagement (form : guest_form)
| HostelFeedbackViewer
| MessFeedbackViewer
| BathroomFeedbackViewer
| FeedbackViewer
| UserManager (delete_click : option string)
| SystemLogs (clear_click : bool).

Definition unauthorized (d : db) : outcome page_out := Returned (Warning "Unauthorized access") d.

(** [hostel_feedback_viewer], [mess_feedback_viewer],
    [bathroom_feedback_viewer], [feedback_viewer]: guard, log the view,
    then read and display. *)
Definition viewer_page (action : string) (now : nat) (sess : session) (d : db)
  : outcome page_out :=
  if negb (is_admin sess) then unauthorized d
  else py_seq (log_admin_action action "" now d) (fun _ d1 => Returned Rendered d1).

(** [user_manager] *)
Definition user_manager (delete_click : option string) (now : nat) (sess : session) (d : db)
  : outcome page_out :=
  if negb (is_admin sess) then unauthorized d
  else py_seq (log_admin_action "VIEWED_USER_MANAGEMENT" "" now d) (fun _ d1 =>
    let usernames := map u_username (users d1) in
    match usernames with
    | [] => Returned Rendered d1
    | _ :: _ =>
        match delete_click with
        | Some u =>
            if member u usernames then
              py_seq (delete_user u d1) (fun ok d2 =>
                if ok then py_seq (log_admin_action "USER_DELETION" ("Deleted user: " ++ u) now d2)
                                  (fun _ d3 => Returned Rendered d3)
                else Returned Rendered d2)
            else Returned Rendered d1
        | None => Returned Rendered d1
        end
    end).

(** [system_logs] *)
Definition system_logs (clear_click : bool) (now : nat) (sess : session) (d : db)
  : outcome page_out :=
  if negb (is_admin sess) then unauthorized d
  else match admin_logs d with
       | [] => Returned Rendered d
       | _ :: _ =>
           if clear_click then
             py_seq (clear_admin_logs d) (fun ok d1 =>
               if ok then py_seq (log_admin_action "LOGS_CLEARED" "All system logs cleared" now d1)
                                 (fun _ d2 => Returned Rendered d2)
               else Returned Rendered d1)
           else Returned Rendered d
       end.

(** [admin_dashboard]: guard, then only reads (the counts and
    [get_recent_feedback]). *)
Definition admin_dashboard (sess : session) (d : db) : outcome page_out :=
  if negb (is_admin sess) then unauthorized d
  else Returned Rendered d.

(** [if call(...): ...; log_admin_action(action, details)] of the
    management forms. *)
Definition log_on_success (o : outcome bool) (action details : string) (now : nat)
  : outcome page_out :=
  py_seq o (fun ok d1 =>
    if ok then py_seq (log_admin_action action details now d1) (fun _ d2 => Returned Rendered d2)
    else Returned Rendered d1).

(** [hostel_management] *)
Definition hostel_management (add_hostel_form : option (string * string)) (now : nat)
  (sess : session) (d : db) : outcome page_out :=
  if negb (is_admin sess) then unauthorized d
  else py_seq (log_admin_action "VIEWED_HOSTEL_MANAGEMENT" "" now d) (fun _ d1 =>
    match add_hostel_form with
    | None => Returned Rendered d1
    | Some (hostel_name, hostel_location) =>
        if negb (String.eqb hostel_name "") && negb (String.eqb hostel_location "") then
          log_on_success (add_hostel hostel_name hostel_location d1)
            "HOSTEL_ADDED" ("Added hostel: " ++ hostel_name) now
        else Returned Rendered d1
    end).

(** [dict(zip(hostels_data['name'], hostels_data['hostel_id']))[selected_hostel]]
    over [SELECT * FROM hostel]: the last hostel row with that name. *)
Definition hostel_options_lookup (selected_hostel : string) (hs : list hostel) : option nat :=
  fold_left (fun acc h => if String.eqb (h_name h) selected_hostel then Some (h_id h) else acc)
    hs None.

(** [room_management] *)
Definition room_management (add_room_form : option (string * string * string)) (now : nat)
  (sess : session) (d : db) : outcome page_out :=
  if negb (is_admin sess) then unauthorized d
  else py_seq (log_admin_action "VIEWED_ROOM_MANAGEMENT" "" now d) (fun _ d1 =>
    match hostels d1 with
    | [] => Returned Rendered d1
    | _ :: _ =>
        match add_room_form with
        | None => Returned Rendered d1
        | Some (room_number, room_type, selected_hostel) =>
            if negb (String.eqb room_number "") && negb (String.eqb selected_hostel "") then
              match hostel_options_lookup selected_hostel (hostels d1) with
              | Some hostel_id =>
                  log_on_success (add_room room_number room_type hostel_id d1) "ROOM_ADDED"
                    ("Added room " ++ room_number ++ " to hostel " ++ selected_hostel) now
              | None => Raised (KeyError selected_hostel) d1
              end
            else Returned Rendered d1
        end
    end).

(** [guest_management] *)
Definition guest_management (form : guest_form) (now : nat) (sess : session) (d : db)
  : outcome page_out :=
  if negb (is_admin sess) then unauthorized d
  else py_seq (log_admin_action "VIEWED_GUEST_MANAGEMENT" "" now d) (fun _ d1 =>
    match form with
    | NoGuestForm => Returned Rendered d1
    | AssignRoomForm selected_guest selected_room guest_id room_id check_in_date =>
        if negb (String.eqb selected_guest "") && negb (String.eqb selected_room "") then
          log_on_success (assign_room_to_guest guest_id room_id check_in_date d1)
            "ROOM_ASSIGNED" ("Assigned room to guest: " ++ selected_guest) now
        else Returned Rendered d1
    | CheckoutForm selected_checkout guest_id room_id checkout_date =>
        if negb (String.eqb selected_checkout "") then
          log_on_success (checkout_guest guest_id room_id checkout_date d1)
            "GUEST_CHECKOUT" ("Guest checked out: " ++ selected_checkout) now
        else Returned Rendered d1
    end).

Definition admin_page (req : admin_request) (now : nat) (sess : session) (d : db)
  : outcome page_out :=
  match req with
  | AdminDashboard => admin_dashboard sess d
  | HostelManagement f => hostel_management f now sess d
  | RoomManagement f => room_management f now sess d
  | GuestManagement f => guest_management f now sess d
  | HostelFeedbackViewer => viewer_page "VIEWED_HOSTEL_FEEDBACK" now sess d
  | MessFeedbackViewer => viewer_page "VIEWED_MESS_FEEDBACK" now sess d
  | BathroomFeedbackViewer => viewer_page "VIEWED_BATHROOM_FEEDBACK" now sess d
  | FeedbackViewer => viewer_page "VIEWED_ALL_FEEDBACK" now sess d
  | UserManager c => user_manager c now sess d
  | SystemLogs c => system_logs c now sess d
  end.

(** The "Student Login" form of [render_login_page]: the message shown
    and the session afterwards. *)
Definition student_login (hash_password : string -> string) (username password : string)
  (now : nat) (sess : session) (d : db) : outcome (string * session) :=
  py_seq (authenticate_user hash_password username password now d) (fun ok d1 =>
    if ok then Returned ("Login successful!", mkSession true (Some username) (is_admin sess)) d1
    else Returned ("Invalid credentials", sess) d1).

(** ** Every store-changing call of the program *)

Inductive op :=
| OpAuthenticate (username password : string) (now : nat)
| OpRegister (username password : string) (ud : user_data) (now : nat)
| OpDeleteUser (username : string)
| OpAddHostel (name location : string)
| OpAddRoom (room_number room_type : string) (hostel_id : nat)
| OpAssignRoom (guest_id room_id : nat) (check_in_date : string)
| OpCheckout (guest_id room_id : nat) (check_out_date : string)
| OpSubmitFeedback (username : string) (fd : feedback_data) (now : nat)
| OpClearLogs
| OpLogAction (action details : string) (now : nat)
| OpAdminPage (req : admin_request) (now : nat) (sess : session).

Definition run_op (hash_password : string -> string) (o : op) (d : db) : db :=
  match o with
  | OpAuthenticate u p t => store_of (authenticate_user hash_password u p t d)
  | OpRegister u p ud t => store_of (register_user hash_password u p ud t d)
  | OpDeleteUser u => store_of (delete_user u d)
  | OpAddHostel n l => store_of (add_hostel n l d)
  | OpAddRoom n ty h => store_of (add_room n ty h d)
  | OpAssignRoom g r dt => store_of (assign_room_to_guest g r dt d)
  | OpCheckout g r dt => store_of (checkout_guest g r dt d)
  | OpSubmitFeedback u fd t => store_of (submit_feedback u fd t d)
  | OpClearLogs => store_of (clear_admin_logs d)
  | OpLogAction a det t => store_of (log_admin_action a det t d)
  | OpAdminPage req t sess => store_of (admin_page req t sess d)
  end.

Fixpoint run_ops (hash_password : string -> string) (ops : list op) (d : db) : db :=
  match ops with
  | [] => d
  | o :: rest => run_ops hash_password rest (run_op hash_password o d)
  end.

(** The store after [initialize_database] on a fresh file. *)
Definition initial_db : db :=
  mkDB []
    [mkHostel 1 "Main Hostel" "Campus North"; mkHostel 2 "Annexe Hostel" "Campus South";
     mkHostel 3 "New Block" "Campus East"]
    [mkRoom 1 "101" "Single" (Some 1); mkRoom 2 "102" "Double" (Some 1);
     mkRoom 3 "103" "Triple" (Some 1); mkRoom 4 "201" "Single" (Some 2);
     mkRoom 5 "202" "Double" (Some 2); mkRoom 6 "301" "Single" (Some 3)]
    [] [] [] [].

(** ** Predicates on stores *)

(** Every feedback row satisfies the CHECK constraints, read as set
    membership. *)
Definition feedback_valid (d : db) : Prop :=
  forall f, In f (feedbacks d) ->
    In (fb_hostel_rating f) rating_values /\ In (fb_mess_type f) mess_type_values /\
    In (fb_mess_rating f) rating_values /\ In (fb_bathroom_rating f) rating_values.

(** Every stay row with a check-out date is still present, unchanged. *)
Definition closed_stays_kept (d d' : db) : Prop :=
  forall s, In s (stays_in_room d) -> s_check_out_date s <> None -> In s (stays_in_room d').

(** Every table's INTEGER PRIMARY KEY values are distinct. *)
Definition rowids_distinct (d : db) : Prop :=
  NoDup (map u_id (users d)) /\ NoDup (map h_id (hostels d)) /\ NoDup (map r_id (rooms d)) /\
  NoDup (map g_id (guests d)) /\ NoDup (map s_id (stays_in_room d)) /\
  NoDup (map fb_id (feedbacks d)) /\ NoDup (map l_id (admin_logs d)).

(** The open stays (no check-out date) of a guest. *)
Definition open_stays_of (guest_id : nat) (l : list stay) : list stay :=
  filter (fun s => Nat.eqb (s_guest_id s) guest_id &&
                   match s_check_out_date s with None => true | Some _ => false end) l.

(** ** Concrete runs *)

(** A stand-in digest function for evaluating runs. *)
Definition demo_hash (p : string) : string := "sha256:" ++ p.

Definition alice_data : user_data := mkUserData "Alice" "alice@college.edu" "REG01" "101".
Definition bob_data : user_data := mkUserData "Bob" "bob@college.edu" "REG02" "102".

Definition sample_feedback : feedback_data :=
  mkFeedbackData "Clean rooms" "B" "Tasty" "Veg" "A" "Fine" "C" "".

Definition student_session : session := mkSession true (Some "alice") false.

(** The session after a successful admin login. *)
Definition admin_session : session := mkSession true (Some "admin") true.

(** alice registers, submits feedback and is assigned room 1 (her guest
    row has guest_id 1). *)
Definition alice_store : db :=
  run_ops demo_hash
    [OpRegister "alice" "secret1" alice_data 1;
     OpSubmitFeedback "alice" sample_feedback 2;
     OpAssignRoom 1 1 "2026-01-05"] initial_db.

(** The same store after alice is checked out of room 1. *)
Definition closed_store : db := run_ops demo_hash [OpCheckout 1 1 "2026-02-01"] alice_store.

(** bob registers and is then deleted by the admin. *)
Definition bob_store : db :=
  run_ops demo_hash [OpRegister "bob" "pw12345" bob_data 1; OpDeleteUser "bob"] initial_db.

(** ** Admin authentication, the remaining pages and the reports *)

Definition ADMIN_USERNAME : string := "hostel_admin".

(** [ADMIN_PASSWORD_HASH = hashlib.sha256("Soumya@1234".encode()).hexdigest()] *)
Definition ADMIN_PASSWORD_HASH (hash_password : string -> string) : string :=
  hash_password "Soumya@1234".

(** [authenticate_admin(username, password)] *)
Definition authenticate_admin (hash_password : string -> string) (username password : string)
  : bool :=
  String.eqb username ADMIN_USERNAME &&
  String.eqb (hash_password password) (ADMIN_PASSWORD_HASH hash_password).

(** The "Admin Login" form of [render_login_page]: the session after the
    form, and the message shown with the store.  On success the session
    flags are set first, then [log_admin_action("ADMIN_LOGIN")] runs. *)
Definition admin_login (hash_password : string -> string) (admin_user admin_pass : string)
  (now : nat) (sess : session) (d : db) : session * outcome string :=
  if authenticate_admin hash_password admin_user admin_pass then
    (mkSession true (Some "admin") true,
     py_seq (log_admin_action "ADMIN_LOGIN" "" now d) (fun _ d1 => Returned "Admin access granted!" d1))
  else (sess, Returned "Invalid admin credentials" d).

(** The "Logout Admin" button of [show_admin_sidebar]: the flags are
    cleared, then [log_admin_action("ADMIN_LOGOUT")] runs. *)
Definition admin_logout (now : nat) (d : db) : session * outcome unit :=
  (mkSession false None false, log_admin_action "ADMIN_LOGOUT" "" now d).

(** [register_page] on submission of the form: the message shown.  The
    Python [all([...])] treats the empty string as false. *)
Definition register_page (hash_password : string -> string)
  (full_name username reg_number room_number email password confirm_pass : string)
  (now : nat) (d : db) : outcome string :=
  if existsb (String.eqb "")
       [full_name; username; reg_number; room_number; email; password; confirm_pass]
  then Returned "Please fill in all fields!" d
  else if negb (String.eqb password confirm_pass) then Returned "Passwords don't match!" d
  else py_seq (register_user hash_password username password
                 (mkUserData full_name email reg_number room_number) now d)
         (fun r d1 => let (success, message) := r in
                      if success then Returned (message ++ " Please login.") d1
                      else Returned message d1).

(** [feedback_page] on submission of the form: the message shown.  A
    logged-in session always has a [current_user]; without one the INSERT
    would carry a NULL username and violate NOT NULL. *)
Definition feedback_page (sess : session) (fd : feedback_data) (now : nat) (d : db)
  : outcome string :=
  if negb (logged_in sess) then Returned "Please login first" d
  else match current_user sess with
       | Some u =>
           py_seq (submit_feedback u fd now d) (fun ok d1 =>
             if ok then Returned "Thank you for your feedback!" d1
             else Returned "Failed to submit feedback. Please try again." d1)
       | None => with_connection (fun _ => None) d
       end.

(** [get_user_count()], [get_guest_count()], [get_feedback_count()]:
    [SELECT COUNT( * )]. *)
Definition get_user_count (d : db) : nat := length (users d).
Definition get_guest_count (d : db) : nat := length (guests d).
Definition get_feedback_count (d : db) : nat := length (feedbacks d).

(** The [rating_type] argument of [get_rating_statistics]: its callers
    pass the literals 'hostel', 'mess' and 'bathroom'. *)
Inductive rating_type := RatingHostel | RatingMess | RatingBathroom.

Definition rating_column (k : rating_type) (f : feedback) : string :=
  match k with
  | RatingHostel => fb_hostel_rating f
  | RatingMess => fb_mess_rating f
  | RatingBathroom => fb_bathroom_rating f
  end.

(** SQLite's BINARY collation compares the bytes of the text. *)
Definition text_compare : string -> string -> comparison := OrdersEx.String_as_OT.compare.

(** Insertion of a group key into the ordered list of keys already seen. *)
Fixpoint insert_group (x : string) (keys : list string) : list string :=
  match keys with
  | [] => [x]
  | y :: rest =>
      match text_compare x y with
      | Lt => x :: keys
      | Eq => keys
      | Gt => y :: insert_group x rest
      end
  end.

(** [GROUP BY <col> ... ORDER BY rating]: the distinct values, ascending. *)
Definition group_keys (vals : list string) : list string := fold_right insert_group [] vals.

Definition count_rating (k : rating_type) (r : string) (fs : list feedback) : nat :=
  length (filter (fun f => String.eqb (rating_column k f) r) fs).

(** [get_rating_statistics(rating_type)]:
    [SELECT <t>_rating as rating, COUNT( * ) as count FROM feedback
     GROUP BY <t>_rating ORDER BY rating] *)
Definition get_rating_statistics (k : rating_type) (d : db) : list (string * nat) :=
  map (fun r => (r, count_rating k r (feedbacks d)))
      (group_keys (map (rating_column k) (feedbacks d))).

End HostelDB.

(** * Properties *)

Import HostelDB.

(** ** Helper lemmas *)

Lemma select_user_password_spec (n pw : string) (d : db) :
  select_user_password n pw d = true <->
  exists r, In r (users d) /\ u_username r = n /\ u_password r = pw.
Proof.
  unfold select_user_password; rewrite existsb_exists; split.
  - intros [r [Hin H]]; apply andb_true_iff in H as [H1 H2].
    apply String.eqb_eq in H1; apply String.eqb_eq in H2; eauto.
  - intros [r [Hin [H1 H2]]]; exists r; split; [exact Hin|].
    subst; rewrite !String.eqb_refl; reflexivity.
Qed.

Lemma user_exists_spec (n : string) (d : db) :
  user_exists n d = true <-> exists r, In r (users d) /\ u_username r = n.
Proof.
  unfold user_exists; rewrite existsb_exists; split.
  - intros [r [Hin H]]; apply String.eqb_eq in H; eauto.
  - intros [r [Hin H]]; exists r; split; [exact Hin|]; subst; apply String.eqb_refl.
Qed.

Lemma filter_keeps_all {A} (f : A -> bool) (l : list A) :
  (forall x, In x l -> f x = true) -> filter f l = l.
Proof.
  induction l as [|x l IH]; intros H; simpl; [reflexivity|].
  rewrite (H x (or_introl eq_refl)), IH; [reflexivity|].
  intros y Hy; apply H; right; exact Hy.
Qed.

Lemma map_fixes_all {A} (f : A -> A) (l : list A) :
  (forall x, In x l -> f x = x) -> map f l = l.
Proof.
  induction l as [|x l IH]; intros H; simpl; [reflexivity|].
  rewrite (H x (or_introl eq_refl)), IH; [reflexivity|].
  intros y Hy; apply H; right; exact Hy.
Qed.

Lemma set_users_same (d : db) : set_users d (users d) = d.
Proof. destruct d; reflexivity. Qed.

Lemma set_stays_same (d : db) : set_stays d (stays_in_room d) = d.
Proof. destruct d; reflexivity. Qed.

(** ** C1 *)

(** C1: [authenticate_user(username, password)] returns True exactly when
    a users row has that username and the stored digest
    [hash_password(password)]; on any other input it returns False and
    leaves the store as it was. *)
Theorem authenticate_user_correct (hash_password : string -> string)
  (username password : string) (now : nat) (d : db) :
  (result_of (authenticate_user hash_password username password now d) = Some true <->
   exists r, In r (users d) /\ u_username r = username /\ u_password r = hash_password password)
  /\ ((~ exists r, In r (users d) /\ u_username r = username /\
                   u_password r = hash_password password) ->
      authenticate_user hash_password username password now d = Returned false d).
Proof.
  unfold authenticate_user, with_connection.
  rewrite <- select_user_password_spec.
  destruct (select_user_password username (hash_password password) d); simpl.
  - split; [tauto|]. intros H; exfalso; apply H; reflexivity.
  - split; [split; discriminate|]. reflexivity.
Qed.

(** ** C4 *)

(** C4: when a users row with [username] exists, [register_user] returns
    [(False, "Username already exists")] and the store is unchanged: no
    users row and no guest row is inserted. *)
Theorem register_user_duplicate (hash_password : string -> string)
  (username password : string) (ud : user_data) (now : nat) (d : db)
  (Hex : exists r, In r (users d) /\ u_username r = username) :
  register_user hash_password username password ud now d =
  Returned (false, "Username already exists") d.
Proof.
  apply user_exists_spec in Hex.
  unfold register_user, with_connection; rewrite Hex; reflexivity.
Qed.

(** ** C5 *)

(** C5: every admin page (the dashboard and the feedback reports, the
    hostel, room and guest management forms, user management with its
    deletion, the system logs with their clearing) run from a session
    whose [is_admin] flag is not set shows the "Unauthorized access"
    warning and leaves the store unchanged. *)
Theorem admin_page_unauthorized (req : admin_request) (now : nat) (sess : session) (d : db)
  (Hnot : is_admin sess = false) :
  admin_page req now sess d = Returned (Warning "Unauthorized access") d.
Proof.
  destruct req; simpl;
    unfold admin_dashboard, hostel_management, room_management, guest_management,
      viewer_page, user_manager, system_logs;
    rewrite Hnot; reflexivity.
Qed.

(** ** C6 *)

(** C6: a student login with an unknown username and one with a known
    username but a wrong password produce the same result: the same
    store, the same "Invalid credentials" message and the same session. *)
Theorem failed_logins_indistinguishable (hash_password : string -> string)
  (u1 p1 u2 p2 : string) (now : nat) (sess : session) (d : db)
  (Hunknown : ~ exists r, In r (users d) /\ u_username r = u1)
  (Hknown : exists r, In r (users d) /\ u_username r = u2)
  (Hwrong : ~ exists r, In r (users d) /\ u_username r = u2 /\
                        u_password r = hash_password p2) :
  student_login hash_password u1 p1 now sess d = student_login hash_password u2 p2 now sess d /\
  student_login hash_password u2 p2 now sess d = Returned ("Invalid credentials", sess) d.
Proof.
  assert (H1 : ~ exists r, In r (users d) /\ u_username r = u1 /\
                           u_password r = hash_password p1)
    by (intros [r [Hin [Hu _]]]; apply Hunknown; eauto).
  unfold student_login.
  rewrite (proj2 (authenticate_user_correct hash_password u1 p1 now d) H1).
  rewrite (proj2 (authenticate_user_correct hash_password u2 p2 now d) Hwrong).
  split; reflexivity.
Qed.

(** ** C10 *)

(** C10: [delete_user] of a username with no users row, and
    [checkout_guest] of a guest with no open stay in that room, both
    return True and leave the store unchanged. *)
Theorem zero_row_statements_succeed (username : string) (guest_id room_id : nat)
  (check_out_date : string) (d : db)
  (Hnouser : ~ exists r, In r (users d) /\ u_username r = username)
  (Hnostay : ~ exists s, In s (stays_in_room d) /\ s_guest_id s = guest_id /\
                         s_room_id s = room_id /\ s_check_out_date s = None) :
  delete_user username d = Returned true d /\
  checkout_guest guest_id room_id check_out_date d = Returned true d.
Proof.
  split.
  - unfold delete_user, with_connection, delete_users; simpl.
    rewrite filter_keeps_all; [rewrite set_users_same; reflexivity|].
    intros r Hin; destruct (String.eqb (u_username r) username) eqn:E; [|reflexivity].
    apply String.eqb_eq in E; exfalso; apply Hnouser; eauto.
  - unfold checkout_guest, with_connection, update_checkout; simpl.
    rewrite map_fixes_all; [rewrite set_stays_same; reflexivity|].
    intros s Hin; destruct (s_check_out_date s) eqn:Eo; [reflexivity|].
    destruct (Nat.eqb (s_guest_id s) guest_id) eqn:Eg; [|reflexivity].
    destruct (Nat.eqb (s_room_id s) room_id) eqn:Er; [|reflexivity].
    apply Nat.eqb_eq in Eg; apply Nat.eqb_eq in Er.
    exfalso; apply Hnostay; eauto 6.
Qed.

(** ** C7 *)

(** C7: after a successful [authenticate_user(username, password)] whose
    [datetime.now()] reading is not earlier than a reading [t_before]
    taken before the call, the row of [username] has [last_login] set to
    a time [>= t_before]; every other column of that row, every other
    row and every other table are unchanged. *)
Theorem authenticate_updates_last_login_only (hash_password : string -> string)
  (username password : string) (t_before now : nat) (d d' : db)
  (Hclock : t_before <= now)
  (Hok : authenticate_user hash_password username password now d = Returned true d') :
  length (users d') = length (users d) /\
  (forall i r, nth_error (users d) i = Some r ->
     exists r', nth_error (users d') i = Some r' /\
       u_id r' = u_id r /\ u_username r' = u_username r /\ u_password r' = u_password r /\
       u_name r' = u_name r /\ u_email r' = u_email r /\ u_reg_no r' = u_reg_no r /\
       u_room_no r' = u_room_no r /\ u_created_at r' = u_created_at r /\
       (u_username r = username -> exists t, u_last_login r' = Some t /\ t_before <= t) /\
       (u_username r <> username -> r' = r)) /\
  hostels d' = hostels d /\ rooms d' = rooms d /\ guests d' = guests d /\
  stays_in_room d' = stays_in_room d /\ feedbacks d' = feedbacks d /\
  admin_logs d' = admin_logs d.
Proof.
  unfold authenticate_user, with_connection in Hok.
  destruct (select_user_password username (hash_password password) d); [|discriminate].
  injection Hok as <-; unfold update_last_login; simpl.
  split; [apply length_map|].
  split; [|repeat split; reflexivity].
  intros i r Hr; rewrite nth_error_map, Hr; simpl.
  eexists; split; [reflexivity|].
  destruct (String.eqb (u_username r) username) eqn:E; simpl.
  - apply String.eqb_eq in E.
    repeat split; try reflexivity.
    + intros _; exists now; split; [reflexivity | exact Hclock].
    + intros Hne; contradiction.
  - apply String.eqb_neq in E.
    repeat split; try reflexivity.
    intros Heq; contradiction.
Qed.

(** ** Invariants of every run of the program *)

Section StepInvariant.

(** A relation between the store before and after a call, preserved by
    every SQL statement the program issues. *)
Variable P : db -> db -> Prop.
Hypothesis P_refl : forall d, P d d.
Hypothesis P_trans : forall d1 d2 d3, P d1 d2 -> P d2 d3 -> P d1 d3.
Hypothesis P_last_login : forall n t d, P d (update_last_login n t d).
Hypothesis P_insert_user :
  forall n pw ud t d id d', insert_user n pw ud t d = Some (id, d') -> P d d'.
Hypothesis P_insert_guest :
  forall n e uid d d', insert_guest foreign_keys n e uid d = Some d' -> P d d'.
Hypothesis P_delete_users : forall n d, P d (delete_users foreign_keys n d).
Hypothesis P_insert_hostel : forall n l d, P d (insert_hostel n l d).
Hypothesis P_insert_room :
  forall n ty h d d', insert_room foreign_keys n ty h d = Some d' -> P d d'.
Hypothesis P_insert_stay :
  forall g r dt d d', insert_stay foreign_keys g r dt d = Some d' -> P d d'.
Hypothesis P_update_checkout : forall g r dt d, P d (update_checkout g r dt d).
Hypothesis P_insert_feedback :
  forall u fd t d d', insert_feedback foreign_keys (feedback_row u fd t d) d = Some d' -> P d d'.
Hypothesis P_insert_log : forall t a det d, P d (insert_log t a det d).
Hypothesis P_delete_logs : forall d, P d (delete_logs d).

Lemma with_connection_P {A} (body : db -> option (A * db)) (d : db) :
  (forall v d', body d = Some (v, d') -> P d d') -> P d (store_of (with_connection body d)).
Proof.
  unfold with_connection; destruct (body d) as [[v d']|] eqn:E; simpl; eauto.
Qed.

Lemma py_seq_P {A B} (d : db) (o : outcome A) (k : A -> db -> outcome B) :
  P d (store_of o) -> (forall v d1, P d1 (store_of (k v d1))) ->
  P d (store_of (py_seq o k)).
Proof. destruct o; simpl; eauto. Qed.

Ltac body_step :=
  intros ? ? Hb; cbv beta in Hb;
  repeat match type of Hb with
         | option_map _ ?x = Some _ =>
             let E := fresh "E" in
             destruct x eqn:E; simpl in Hb; [|discriminate]
         end;
  match type of Hb with
  | Some (_, ?x) = Some (_, ?y) => replace y with x by congruence
  end;
  eauto.

Lemma log_admin_action_P a det t d : P d (store_of (log_admin_action a det t d)).
Proof. apply with_connection_P; body_step. Qed.

Lemma delete_user_P u d : P d (store_of (delete_user u d)).
Proof. apply with_connection_P; body_step. Qed.

Lemma clear_admin_logs_P d : P d (store_of (clear_admin_logs d)).
Proof. apply with_connection_P; body_step. Qed.

Lemma authenticate_user_P h u p t d : P d (store_of (authenticate_user h u p t d)).
Proof.
  apply with_connection_P; intros v d' Hb.
  destruct (select_user_password u (h p) d); injection Hb as <- <-; auto.
Qed.

Lemma register_user_P h u p ud t d : P d (store_of (register_user h u p ud t d)).
Proof.
  apply with_connection_P; intros v d' Hb.
  destruct (user_exists u d); [injection Hb as <- <-; auto|].
  destruct (insert_user u (h p) ud t d) as [[id d1]|] eqn:E1; [|discriminate].
  destruct (insert_guest foreign_keys (ud_name ud) (ud_email ud) id d1) eqn:E2; [|discriminate].
  injection Hb as <- <-; eauto.
Qed.

Lemma viewer_page_P action t sess d : P d (store_of (viewer_page action t sess d)).
Proof.
  unfold viewer_page; destruct (is_admin sess); cbn [negb]; [|apply P_refl].
  apply py_seq_P; [apply log_admin_action_P | intros; apply P_refl].
Qed.

Lemma user_manager_P c t sess d : P d (store_of (user_manager c t sess d)).
Proof.
  unfold user_manager; destruct (is_admin sess); cbn [negb]; [|apply P_refl].
  apply py_seq_P; [apply log_admin_action_P|intros _ d1].
  destruct (map u_username (users d1)) as [|x xs]; [apply P_refl|].
  destruct c as [u|]; [|apply P_refl].
  destruct (member u (x :: xs)); [|apply P_refl].
  apply py_seq_P; [apply delete_user_P|intros ok d2].
  destruct ok; [|apply P_refl].
  apply py_seq_P; [apply log_admin_action_P|intros; apply P_refl].
Qed.

Lemma system_logs_P c t sess d : P d (store_of (system_logs c t sess d)).
Proof.
  unfold system_logs; destruct (is_admin sess); cbn [negb]; [|apply P_refl].
  destruct (admin_logs d); [apply P_refl|].
  destruct c; [|apply P_refl].
  apply py_seq_P; [apply clear_admin_logs_P|intros ok d1].
  destruct ok; [|apply P_refl].
  apply py_seq_P; [apply log_admin_action_P|intros; apply P_refl].
Qed.

Lemma log_on_success_P (o : outcome bool) a det t d :
  P d (store_of o) -> P d (store_of (log_on_success o a det t)).
Proof.
  intros Ho; apply py_seq_P; [exact Ho|intros ok d1].
  destruct ok; [|apply P_refl].
  apply py_seq_P; [apply log_admin_action_P|intros; apply P_refl].
Qed.

Lemma hostel_management_P f t sess d : P d (store_of (hostel_management f t sess d)).
Proof.
  unfold hostel_management; destruct (is_admin sess); cbn [negb]; [|apply P_refl].
  apply py_seq_P; [apply log_admin_action_P|intros _ d1].
  destruct f as [[n l]|]; [|apply P_refl].
  destruct (negb (String.eqb n "") && negb (String.eqb l "")); [|apply P_refl].
  apply log_on_success_P, with_connection_P; body_step.
Qed.

Lemma room_management_P f t sess d : P d (store_of (room_management f t sess d)).
Proof.
  unfold room_management; destruct (is_admin sess); cbn [negb]; [|apply P_refl].
  apply py_seq_P; [apply log_admin_action_P|intros _ d1].
  destruct (hostels d1) as [|h hs]; [apply P_refl|].
  destruct f as [[[n ty] sel]|]; [|apply P_refl].
  destruct (negb (String.eqb n "") && negb (String.eqb sel "")); [|apply P_refl].
  destruct (hostel_options_lookup sel (h :: hs)) as [hid|]; [|apply P_refl].
  apply log_on_success_P, with_connection_P; body_step.
Qed.

Lemma guest_management_P f t sess d : P d (store_of (guest_management f t sess d)).
Proof.
  unfold guest_management; destruct (is_admin sess); cbn [negb]; [|apply P_refl].
  apply py_seq_P; [apply log_admin_action_P|intros _ d1].
  destruct f as [|sg sr g r dt|sc g r dt]; [apply P_refl| |].
  - destruct (negb (String.eqb sg "") && negb (String.eqb sr "")); [|apply P_refl].
    apply log_on_success_P, with_connection_P; body_step.
  - destruct (negb (String.eqb sc "")); [|apply P_refl].
    apply log_on_success_P, with_connection_P; body_step.
Qed.

Lemma admin_page_P req t sess d : P d (store_of (admin_page req t sess d)).
Proof.
  destruct req; unfold admin_page;
    auto using viewer_page_P, user_manager_P, system_logs_P, hostel_management_P,
      room_management_P, guest_management_P.
  unfold admin_dashboard; destruct (is_admin sess); apply P_refl.
Qed.

Lemma run_op_P h o d : P d (run_op h o d).
Proof.
  destruct o; unfold run_op.
  - apply authenticate_user_P.
  - apply register_user_P.
  - apply delete_user_P.
  - apply with_connection_P; body_step.
  - apply with_connection_P; body_step.
  - apply with_connection_P; body_step.
  - apply with_connection_P; body_step.
  - apply with_connection_P; body_step.
  - apply clear_admin_logs_P.
  - apply log_admin_action_P.
  - apply admin_page_P.
Qed.

Lemma run_ops_P h ops d : P d (run_ops h ops d).
Proof.
  revert d; induction ops as [|o ops IH]; intros d; cbn [run_ops]; eauto using run_op_P.
Qed.

End StepInvariant.

Lemma member_spec (x : string) (l : list string) : member x l = true <-> In x l.
Proof.
  unfold member; rewrite existsb_exists; split.
  - intros [y [Hin E]]; apply String.eqb_eq in E; subst; exact Hin.
  - intros Hin; exists x; split; [exact Hin | apply String.eqb_refl].
Qed.

Lemma feedback_checks_spec (f : feedback) :
  feedback_checks f = true <->
  In (fb_hostel_rating f) rating_values /\ In (fb_mess_type f) mess_type_values /\
  In (fb_mess_rating f) rating_values /\ In (fb_bathroom_rating f) rating_values.
Proof.
  unfold feedback_checks; rewrite !andb_true_iff, !member_spec; tauto.
Qed.

Lemma run_ops_feedback_valid (h : string -> string) (ops : list op) (d : db) :
  feedback_valid d -> feedback_valid (run_ops h ops d).
Proof.
  apply (run_ops_P (fun d d' => feedback_valid d -> feedback_valid d'));
    unfold feedback_valid; cbv beta.
  - auto.
  - auto.
  - intros n t d0 Hv; exact Hv.
  - intros n pw ud t d0 id d' E Hv.
    unfold insert_user in E; destruct (user_exists n d0); [discriminate|].
    injection E as _ <-; exact Hv.
  - intros n e uid d0 d' E Hv.
    unfold insert_guest in E; destruct (foreign_keys && _); [discriminate|].
    injection E as <-; exact Hv.
  - intros n d0 Hv; exact Hv.
  - intros n l d0 Hv; exact Hv.
  - intros n ty hid d0 d' E Hv.
    unfold insert_room in E; destruct (foreign_keys && _); [discriminate|].
    injection E as <-; exact Hv.
  - intros g r dt d0 d' E Hv.
    unfold insert_stay in E; destruct (foreign_keys && _); [discriminate|].
    injection E as <-; exact Hv.
  - intros g r dt d0 Hv; exact Hv.
  - intros u fd t d0 d' E Hv.
    unfold insert_feedback in E.
    destruct (feedback_checks (feedback_row u fd t d0)) eqn:Ec; [|discriminate].
    destruct (foreign_keys && _); [discriminate|].
    injection E as <-; simpl.
    intros f' Hin; apply in_app_or in Hin as [Hin|[<-|[]]].
    + apply Hv; exact Hin.
    + apply feedback_checks_spec; exact Ec.
  - intros t a det d0 Hv; exact Hv.
  - intros d0 Hv; exact Hv.
Qed.

(** ** C2 *)

(** C2: starting from a store whose feedback rows satisfy the CHECK
    constraints, every run of the program keeps the three ratings in
    {A,B,C,D,E} and the mess type in {Veg, Non-Veg, Special, Food-Park};
    a [submit_feedback] with a value outside these sets fails (the
    insert raises, surfacing as a RuntimeError) and adds no row. *)
Theorem feedback_values_enumerated (h : string -> string) (ops : list op) (d : db)
  (Hv : feedback_valid d) :
  feedback_valid (run_ops h ops d) /\
  forall username fd now,
    ~ (In (fd_hostel_rating fd) rating_values /\ In (fd_mess_type fd) mess_type_values /\
       In (fd_mess_rating fd) rating_values /\ In (fd_bathroom_rating fd) rating_values) ->
    submit_feedback username fd now (run_ops h ops d) =
    Raised (RuntimeError "generator didn't stop after throw()") (run_ops h ops d).
Proof.
  split; [apply run_ops_feedback_valid; exact Hv|].
  generalize (run_ops h ops d) as d'; intros d' username fd now Hbad.
  unfold submit_feedback, with_connection, insert_feedback.
  destruct (feedback_checks (feedback_row username fd now d')) eqn:Ec.
  - exfalso; apply Hbad; apply feedback_checks_spec in Ec; exact Ec.
  - reflexivity.
Qed.

(** ** C9 *)

(** C9: a stay row whose check-out date is set survives every run of the
    program unchanged: no call resets its check-out date to NULL or
    changes it. *)
Theorem stay_checkout_final (h : string -> string) (ops : list op) (d : db) (s : stay)
  (Hin : In s (stays_in_room d)) (Hclosed : s_check_out_date s <> None) :
  In s (stays_in_room (run_ops h ops d)).
Proof.
  revert s Hin Hclosed; change (closed_stays_kept d (run_ops h ops d)).
  apply run_ops_P; unfold closed_stays_kept.
  - auto.
  - intros d1 d2 d3 H12 H23 s Hs Hc; apply H23; auto.
  - intros n t d0 s Hs _; exact Hs.
  - intros n pw ud t d0 id d' E s Hs _.
    unfold insert_user in E; destruct (user_exists n d0); [discriminate|].
    injection E as _ <-; exact Hs.
  - intros n e uid d0 d' E s Hs _.
    unfold insert_guest in E; destruct (foreign_keys && _); [discriminate|].
    injection E as <-; exact Hs.
  - intros n d0 s Hs _; exact Hs.
  - intros n l d0 s Hs _; exact Hs.
  - intros n ty hid d0 d' E s Hs _.
    unfold insert_room in E; destruct (foreign_keys && _); [discriminate|].
    injection E as <-; exact Hs.
  - intros g r dt d0 d' E s Hs _.
    unfold insert_stay in E; destruct (foreign_keys && _); [discriminate|].
    injection E as <-; simpl; apply in_or_app; left; exact Hs.
  - intros g r dt d0 s Hs Hc.
    unfold update_checkout; simpl; apply in_map_iff; exists s; split; [|exact Hs].
    destruct (s_check_out_date s) eqn:Eo; [reflexivity | contradiction].
  - intros u fd t d0 d' E s Hs _.
    unfold insert_feedback in E.
    destruct (feedback_checks _); [|discriminate].
    destruct (foreign_keys && _); [discriminate|].
    injection E as <-; exact Hs.
  - intros t a det d0 s Hs _; exact Hs.
  - intros d0 s Hs _; exact Hs.
Qed.

(** ** C3 *)

(** C3: [delete_user("alice")] on a store where alice has a feedback row,
    a guest row (user_id 1) and a stay of that guest returns True and
    removes her users row, but the feedback row, the guest row and the
    stay all remain: the connection never enables foreign keys, so the
    ON DELETE CASCADE clauses of the schema do not fire. *)
Theorem delete_user_no_cascade :
  (exists r, In r (users alice_store) /\ u_username r = "alice" /\ u_id r = 1) /\
  exists d', delete_user "alice" alice_store = Returned true d' /\ users d' = [] /\
    (exists f, In f (feedbacks d') /\ fb_username f = "alice") /\
    (exists g, In g (guests d') /\ g_user_id g = Some 1) /\
    (exists s g, In s (stays_in_room d') /\ In g (guests d') /\
                 s_guest_id s = g_id g /\ g_user_id g = Some 1).
Proof.
  split.
  - eexists; split; [vm_compute; left; reflexivity | split; reflexivity].
  - eexists; split; [reflexivity|].
    split; [reflexivity|].
    split; [eexists; split; [vm_compute; left; reflexivity | reflexivity]|].
    split; [eexists; split; [vm_compute; left; reflexivity | reflexivity]|].
    do 2 eexists; split; [vm_compute; left; reflexivity|].
    split; [vm_compute; left; reflexivity|].
    split; reflexivity.
Qed.

(** The same DELETE on a connection with foreign keys enforced removes
    the dependent feedback, guest and stay rows. *)
Lemma delete_users_cascade_when_enforced :
  feedbacks (delete_users true "alice" alice_store) = [] /\
  guests (delete_users true "alice" alice_store) = [] /\
  stays_in_room (delete_users true "alice" alice_store) = [].
Proof. vm_compute; repeat split. Qed.

(** ** C8 *)

(** C8: after bob registers and is deleted, [submit_feedback("bob", ...)]
    (as from a session still logged in as bob) returns True and stores a
    feedback row for "bob" although no users row has that username: the
    declared foreign key [feedback.username] is not enforced. *)
Theorem submit_feedback_without_user :
  (~ exists r, In r (users bob_store) /\ u_username r = "bob") /\
  exists d', submit_feedback "bob" sample_feedback 3 bob_store = Returned true d' /\
    exists f, In f (feedbacks d') /\ fb_username f = "bob".
Proof.
  split.
  - intros [r [Hin _]]; vm_compute in Hin; exact Hin.
  - eexists; split; [reflexivity|].
    eexists; split; [vm_compute; left; reflexivity | reflexivity].
Qed.

(** With foreign keys enforced the same INSERT is refused. *)
Lemma insert_feedback_refused_when_enforced :
  insert_feedback true (feedback_row "bob" sample_feedback 3 bob_store) bob_store = None.
Proof. vm_compute; reflexivity. Qed.

(** * Witnesses *)

Lemma authenticate_updates_last_login_only_witness :
  exists d', 3 <= 5 /\
    authenticate_user demo_hash "alice" "secret1" 5 alice_store = Returned true d' /\
    length (users d') = length (users alice_store) /\
    (forall i r, nth_error (users alice_store) i = Some r ->
       exists r', nth_error (users d') i = Some r' /\
         u_id r' = u_id r /\ u_username r' = u_username r /\ u_password r' = u_password r /\
         u_name r' = u_name r /\ u_email r' = u_email r /\ u_reg_no r' = u_reg_no r /\
         u_room_no r' = u_room_no r /\ u_created_at r' = u_created_at r /\
         (u_username r = "alice" -> exists t, u_last_login r' = Some t /\ 3 <= t) /\
         (u_username r <> "alice" -> r' = r)) /\
    hostels d' = hostels alice_store /\ rooms d' = rooms alice_store /\
    guests d' = guests alice_store /\ stays_in_room d' = stays_in_room alice_store /\
    feedbacks d' = feedbacks alice_store /\ admin_logs d' = admin_logs alice_store.
Proof.
  eexists.
  assert (Hc : 3 <= 5) by lia.
  assert (Hok : authenticate_user demo_hash "alice" "secret1" 5 alice_store =
                Returned true (store_of (authenticate_user demo_hash "alice" "secret1" 5 alice_store)))
    by (vm_compute; reflexivity).
  split; [exact Hc|]; split; [exact Hok|].
  exact (authenticate_updates_last_login_only demo_hash "alice" "secret1" 3 5 _ _ Hc Hok).
Defined.

Lemma register_user_duplicate_witness :
  (exists r, In r (users alice_store) /\ u_username r = "alice") /\
  register_user demo_hash "alice" "other" bob_data 9 alice_store =
  Returned (false, "Username already exists") alice_store.
Proof.
  assert (Hex : exists r, In r (users alice_store) /\ u_username r = "alice")
    by (eexists; split; [vm_compute; left; reflexivity | reflexivity]).
  split; [exact Hex|].
  exact (register_user_duplicate demo_hash "alice" "other" bob_data 9 alice_store Hex).
Defined.

Lemma admin_page_unauthorized_witness :
  is_admin student_session = false /\
  admin_page (UserManager (Some "alice")) 9 student_session alice_store =
  Returned (Warning "Unauthorized access") alice_store /\
  admin_page (HostelManagement (Some ("Block D", "Campus West"))) 9 student_session alice_store =
  Returned (Warning "Unauthorized access") alice_store.
Proof.
  split; [reflexivity|]; split; apply admin_page_unauthorized; reflexivity.
Defined.

Lemma failed_logins_indistinguishable_witness :
  (~ exists r, In r (users alice_store) /\ u_username r = "mallory") /\
  (exists r, In r (users alice_store) /\ u_username r = "alice") /\
  (~ exists r, In r (users alice_store) /\ u_username r = "alice" /\
               u_password r = demo_hash "wrong") /\
  student_login demo_hash "mallory" "secret1" 4 student_session alice_store =
  student_login demo_hash "alice" "wrong" 4 student_session alice_store /\
  student_login demo_hash "alice" "wrong" 4 student_session alice_store =
  Returned ("Invalid credentials", student_session) alice_store.
Proof.
  assert (H1 : ~ exists r, In r (users alice_store) /\ u_username r = "mallory").
  { intros [r [Hin Hu]]; vm_compute in Hin; destruct Hin as [<-|[]];
      vm_compute in Hu; discriminate Hu. }
  assert (H2 : exists r, In r (users alice_store) /\ u_username r = "alice")
    by (eexists; split; [vm_compute; left; reflexivity | reflexivity]).
  assert (H3 : ~ exists r, In r (users alice_store) /\ u_username r = "alice" /\
                           u_password r = demo_hash "wrong").
  { intros [r [Hin [_ Hp]]]; vm_compute in Hin; destruct Hin as [<-|[]];
      vm_compute in Hp; discriminate Hp. }
  split; [exact H1|]; split; [exact H2|]; split; [exact H3|].
  exact (failed_logins_indistinguishable demo_hash "mallory" "secret1" "alice" "wrong" 4
           student_session alice_store H1 H2 H3).
Defined.

Lemma zero_row_statements_succeed_witness :
  (~ exists r, In r (users alice_store) /\ u_username r = "nobody") /\
  (~ exists s, In s (stays_in_room alice_store) /\ s_guest_id s = 1 /\
               s_room_id s = 2 /\ s_check_out_date s = None) /\
  delete_user "nobody" alice_store = Returned true alice_store /\
  checkout_guest 1 2 "2026-02-01" alice_store = Returned true alice_store.
Proof.
  assert (H1 : ~ exists r, In r (users alice_store) /\ u_username r = "nobody").
  { intros [r [Hin Hu]]; vm_compute in Hin; destruct Hin as [<-|[]];
      vm_compute in Hu; discriminate Hu. }
  assert (H2 : ~ exists s, In s (stays_in_room alice_store) /\ s_guest_id s = 1 /\
                           s_room_id s = 2 /\ s_check_out_date s = None).
  { intros [s [Hin [_ [Hr _]]]]; vm_compute in Hin; destruct Hin as [<-|[]];
      vm_compute in Hr; discriminate Hr. }
  split; [exact H1|]; split; [exact H2|].
  exact (zero_row_statements_succeed "nobody" 1 2 "2026-02-01" alice_store H1 H2).
Defined.

Lemma feedback_values_enumerated_witness :
  feedback_valid alice_store /\
  feedback_valid (run_ops demo_hash [OpDeleteUser "alice"] alice_store) /\
  submit_feedback "alice" (mkFeedbackData "" "F" "" "Veg" "A" "" "A" "") 7
    (run_ops demo_hash [OpDeleteUser "alice"] alice_store) =
  Raised (RuntimeError "generator didn't stop after throw()")
    (run_ops demo_hash [OpDeleteUser "alice"] alice_store).
Proof.
  assert (Hv : feedback_valid alice_store).
  { intros f Hin; vm_compute in Hin; destruct Hin as [<-|[]];
    apply feedback_checks_spec; reflexivity. }
  destruct (feedback_values_enumerated demo_hash [OpDeleteUser "alice"] alice_store Hv)
    as [Hv' Hrej].
  split; [exact Hv|]; split; [exact Hv'|].
  apply Hrej; intros [Hh _]; apply member_spec in Hh; vm_compute in Hh; discriminate Hh.
Defined.

Lemma stay_checkout_final_witness :
  In (mkStay 1 1 1 "2026-01-05" (Some "2026-02-01")) (stays_in_room closed_store) /\
  In (mkStay 1 1 1 "2026-01-05" (Some "2026-02-01"))
    (stays_in_room (run_ops demo_hash
       [OpCheckout 1 1 "2026-03-01"; OpAssignRoom 1 2 "2026-03-02"; OpDeleteUser "alice"]
       closed_store)).
Proof.
  assert (Hin : In (mkStay 1 1 1 "2026-01-05" (Some "2026-02-01")) (stays_in_room closed_store))
    by (vm_compute; left; reflexivity).
  split; [exact Hin|].
  apply stay_checkout_final; [exact Hin | discriminate].
Defined.

(** * Further properties of the program *)

Local Open Scope list_scope.

(** ** Rowid allocation *)

Lemma fold_max_ge (x : nat) (l : list nat) : In x l -> x <= fold_right Nat.max 0 l.
Proof.
  induction l as [|y l IH]; simpl; [tauto|].
  intros [<-|H]; [lia|]. specialize (IH H); lia.
Qed.

Lemma next_rowid_fresh (l : list nat) : ~ In (next_rowid l) l.
Proof. intros H; apply fold_max_ge in H; unfold next_rowid in H; lia. Qed.

Lemma NoDup_app_next_rowid (l : list nat) : NoDup l -> NoDup (l ++ [next_rowid l]).
Proof.
  intros H; apply NoDup_app; [exact H | repeat constructor; simpl; tauto |].
  intros x Hx [<-|[]]; exact (next_rowid_fresh l Hx).
Qed.

(** ** Registration *)

Lemma register_user_fresh_eq (h : string -> string) u p ud t d :
  user_exists u d = false ->
  register_user h u p ud t d =
  Returned (true, "Registration successful")
    (mkDB (users d ++ [mkUser (next_rowid (map u_id (users d))) u (h p) (ud_name ud)
                         (ud_email ud) (ud_reg_no ud) (ud_room_no ud) None t])
          (hostels d) (rooms d)
          (guests d ++ [mkGuest (next_rowid (map g_id (guests d))) (ud_name ud) (ud_email ud)
                          (Some (next_rowid (map u_id (users d))))])
          (stays_in_room d) (feedbacks d) (admin_logs d)).
Proof.
  intros E; unfold register_user, with_connection, insert_user, insert_guest.
  rewrite E; reflexivity.
Qed.

Lemma register_user_success_inv (h : string -> string) u p ud t d m d1 :
  register_user h u p ud t d = Returned (true, m) d1 ->
  user_exists u d = false /\
  d1 = mkDB (users d ++ [mkUser (next_rowid (map u_id (users d))) u (h p) (ud_name ud)
                           (ud_email ud) (ud_reg_no ud) (ud_room_no ud) None t])
            (hostels d) (rooms d)
            (guests d ++ [mkGuest (next_rowid (map g_id (guests d))) (ud_name ud) (ud_email ud)
                            (Some (next_rowid (map u_id (users d))))])
            (stays_in_room d) (feedbacks d) (admin_logs d).
Proof.
  destruct (user_exists u d) eqn:E.
  - unfold register_user, with_connection; rewrite E; discriminate.
  - rewrite (register_user_fresh_eq h u p ud t d E); intros H.
    split; [reflexivity | congruence].
Qed.

(** [register_user] of a fresh username returns
    [(True, "Registration successful")], appends exactly one users row
    (fresh rowid, the password digest, no last login, created now) and
    one guest row linked to it; no other table changes. *)
Theorem register_user_fresh (h : string -> string) (username password : string)
  (ud : user_data) (now : nat) (d : db)
  (Hfresh : ~ exists r, In r (users d) /\ u_username r = username) :
  exists d',
    register_user h username password ud now d = Returned (true, "Registration successful") d' /\
    users d' = users d ++ [mkUser (next_rowid (map u_id (users d))) username (h password)
                             (ud_name ud) (ud_email ud) (ud_reg_no ud) (ud_room_no ud) None now] /\
    ~ In (next_rowid (map u_id (users d))) (map u_id (users d)) /\
    guests d' = guests d ++ [mkGuest (next_rowid (map g_id (guests d))) (ud_name ud) (ud_email ud)
                               (Some (next_rowid (map u_id (users d))))] /\
    get_user_count d' = S (get_user_count d) /\ get_guest_count d' = S (get_guest_count d) /\
    hostels d' = hostels d /\ rooms d' = rooms d /\ stays_in_room d' = stays_in_room d /\
    feedbacks d' = feedbacks d /\ admin_logs d' = admin_logs d.
Proof.
  assert (E : user_exists username d = false).
  { destruct (user_exists username d) eqn:E; [|reflexivity].
    exfalso; apply Hfresh, user_exists_spec, E. }
  eexists; split; [apply register_user_fresh_eq, E|]; simpl.
  unfold get_user_count, get_guest_count; simpl; rewrite !length_app; simpl.
  repeat split; try reflexivity; try lia.
  apply next_rowid_fresh.
Qed.

(** A successful registration is followed by a successful login with the
    same username and password. *)
Theorem register_then_login (h : string -> string) (username password : string)
  (ud : user_data) (t t' : nat) (d d1 : db) (msg : string)
  (Hreg : register_user h username password ud t d = Returned (true, msg) d1) :
  exists d2, authenticate_user h username password t' d1 = Returned true d2.
Proof.
  apply register_user_success_inv in Hreg as [_ ->].
  assert (Hsel : select_user_password username (h password)
                   (mkDB (users d ++ [mkUser (next_rowid (map u_id (users d))) username
                                        (h password) (ud_name ud) (ud_email ud) (ud_reg_no ud)
                                        (ud_room_no ud) None t])
                         (hostels d) (rooms d)
                         (guests d ++ [mkGuest (next_rowid (map g_id (guests d))) (ud_name ud)
                                         (ud_email ud) (Some (next_rowid (map u_id (users d))))])
                         (stays_in_room d) (feedbacks d) (admin_logs d)) = true).
  { apply select_user_password_spec; eexists; split;
      [simpl; apply in_or_app; right; left; reflexivity | split; reflexivity]. }
  unfold authenticate_user, with_connection; rewrite Hsel; eexists; reflexivity.
Qed.

(** ** Deletion *)

Lemma delete_user_eq (u : string) (d : db) :
  delete_user u d = Returned true (set_users d (filter (fun r => negb (u_username r =? u)) (users d))).
Proof. reflexivity. Qed.

(** [delete_user(username)] returns True, removes exactly the users rows
    with that username and changes no other table; afterwards no password
    logs in as that username. *)
Theorem delete_user_effect (h : string -> string) (username : string) (d : db) :
  exists d', delete_user username d = Returned true d' /\
    (forall r, In r (users d') <-> In r (users d) /\ u_username r <> username) /\
    hostels d' = hostels d /\ rooms d' = rooms d /\ guests d' = guests d /\
    stays_in_room d' = stays_in_room d /\ feedbacks d' = feedbacks d /\
    admin_logs d' = admin_logs d /\
    (forall password t, authenticate_user h username password t d' = Returned false d').
Proof.
  eexists; split; [apply delete_user_eq|]; simpl.
  assert (Hmem : forall r, In r (filter (fun r => negb (u_username r =? username)) (users d)) <->
                           In r (users d) /\ u_username r <> username).
  { intros r; rewrite filter_In, negb_true_iff, String.eqb_neq; tauto. }
  split; [exact Hmem|]; repeat split; try reflexivity.
  intros password t; unfold authenticate_user, with_connection.
  destruct (select_user_password username (h password) _) eqn:E; [|reflexivity].
  apply select_user_password_spec in E as [r [Hin [Hu _]]].
  apply Hmem in Hin; simpl in Hin; tauto.
Qed.

(** After [delete_user(username)] the same username can be registered
    again. *)
Theorem delete_then_register (h : string -> string) (username password : string)
  (ud : user_data) (now : nat) (d : db) :
  exists d', register_user h username password ud now (store_of (delete_user username d)) =
             Returned (true, "Registration successful") d'.
Proof.
  eexists; apply register_user_fresh_eq.
  destruct (user_exists username _) eqn:E; [|reflexivity].
  apply user_exists_spec in E as [r [Hin Hu]].
  rewrite delete_user_eq in Hin; simpl in Hin.
  apply filter_In in Hin as [_ Hn]; rewrite Hu, String.eqb_refl in Hn; discriminate.
Qed.

(** Rowids are reused: when the users table is empty, the next
    registration gets user id 1, so every guest row left over with
    [user_id = 1] (its user deleted without cascade) is now linked to the
    new user. *)
Theorem register_reuses_user_id (h : string -> string) (username password : string)
  (ud : user_data) (now : nat) (d d' : db) (msg : string)
  (Hempty : users d = [])
  (Hreg : register_user h username password ud now d = Returned (true, msg) d') :
  exists r, users d' = [r] /\ u_id r = 1 /\ u_username r = username /\
    (forall g, In g (guests d) -> g_user_id g = Some 1 ->
               In g (guests d') /\ g_user_id g = Some (u_id r)).
Proof.
  apply register_user_success_inv in Hreg as [_ ->]; simpl; rewrite Hempty; simpl.
  eexists; split; [reflexivity|]; split; [reflexivity|]; split; [reflexivity|].
  intros g Hg Hu; split; [apply in_or_app; left; exact Hg | exact Hu].
Qed.

(** ** Uniqueness invariants *)

(** Deleting rows keeps the key column free of duplicates. *)
Lemma NoDup_map_filter {A B} (key : A -> B) (keep : A -> bool) (rows : list A) :
  NoDup (map key rows) -> NoDup (map key (filter keep rows)).
Proof.
  induction rows as [|x l IH]; simpl; intros H; [constructor|].
  inversion H as [|? ? Hnotin Hnd]; subst.
  destruct (keep x); simpl; [|auto].
  constructor; [|auto].
  intros Hin; apply Hnotin; apply in_map_iff in Hin as [y [Hy Hin]].
  apply filter_In in Hin as [Hin _]; rewrite <- Hy; apply in_map; exact Hin.
Qed.

Lemma map_update_last_login {B} (f : user -> B) n t l
  (Hf : forall u lt, f (mkUser (u_id u) (u_username u) (u_password u) (u_name u) (u_email u)
                          (u_reg_no u) (u_room_no u) lt (u_created_at u)) = f u) :
  map f (map (fun u => if String.eqb (u_username u) n
                       then mkUser (u_id u) (u_username u) (u_password u) (u_name u)
                              (u_email u) (u_reg_no u) (u_room_no u) (Some t) (u_created_at u)
                       else u) l) = map f l.
Proof.
  rewrite map_map; apply map_ext; intros u; destruct (String.eqb (u_username u) n); auto.
Qed.

(** Usernames stay unique: from a store without duplicate usernames,
    every run of the program keeps the usernames of the users table
    pairwise distinct. *)
Theorem usernames_stay_unique (h : string -> string) (ops : list op) (d : db)
  (Hnd : NoDup (map u_username (users d))) :
  NoDup (map u_username (users (run_ops h ops d))).
Proof.
  revert Hnd.
  apply (run_ops_P (fun d d' => NoDup (map u_username (users d)) ->
                                NoDup (map u_username (users d'))));
    cbv beta.
  - auto.
  - auto.
  - intros n t d0 H; unfold update_last_login; simpl.
    rewrite map_update_last_login; auto.
  - intros n pw ud t d0 id d' E H.
    unfold insert_user in E; destruct (user_exists n d0) eqn:Ex; [discriminate|].
    injection E as _ <-; simpl; rewrite map_app; simpl.
    apply NoDup_app; [exact H | repeat constructor; simpl; tauto|].
    intros x Hx [<-|[]]; apply in_map_iff in Hx as [r [Hr Hin]].
    assert (user_exists n d0 = true) by (apply user_exists_spec; eauto).
    congruence.
  - intros n e uid d0 d' E H.
    unfold insert_guest in E; destruct (foreign_keys && _); [discriminate|].
    injection E as <-; exact H.
  - intros n d0 H; unfold delete_users, foreign_keys; simpl.
    apply NoDup_map_filter; exact H.
  - intros n l d0 H; exact H.
  - intros n ty hid d0 d' E H.
    unfold insert_room in E; destruct (foreign_keys && _); [discriminate|].
    injection E as <-; exact H.
  - intros g r dt d0 d' E H.
    unfold insert_stay in E; destruct (foreign_keys && _); [discriminate|].
    injection E as <-; exact H.
  - intros g r dt d0 H; exact H.
  - intros u fd t d0 d' E H.
    unfold insert_feedback in E; destruct (feedback_checks _); [|discriminate].
    destruct (foreign_keys && _); [discriminate|].
    injection E as <-; exact H.
  - intros t a det d0 H; exact H.
  - intros d0 H; exact H.
Qed.

Lemma map_update_checkout {B} (f : stay -> B) g r dt l
  (Hf : forall s co, f (mkStay (s_id s) (s_guest_id s) (s_room_id s) (s_check_in_date s) co) = f s) :
  map f (map (fun s =>
    match s_check_out_date s with
    | None => if Nat.eqb (s_guest_id s) g && Nat.eqb (s_room_id s) r
              then mkStay (s_id s) (s_guest_id s) (s_room_id s) (s_check_in_date s) (Some dt)
              else s
    | Some _ => s
    end) l) = map f l.
Proof.
  rewrite map_map; apply map_ext; intros s.
  destruct (s_check_out_date s); [reflexivity|].
  destruct (Nat.eqb (s_guest_id s) g && Nat.eqb (s_room_id s) r); auto.
Qed.

Ltac next_rowid_goal :=
  rewrite map_app; simpl; apply NoDup_app_next_rowid; assumption.

(** Primary keys stay distinct: from a store whose tables have distinct
    rowids, every run of the program keeps the rowids of every table
    distinct (each INSERT takes one more than the largest rowid). *)
Theorem rowids_stay_distinct (h : string -> string) (ops : list op) (d : db)
  (Hd : rowids_distinct d) :
  rowids_distinct (run_ops h ops d).
Proof.
  revert Hd.
  apply (run_ops_P (fun d d' => rowids_distinct d -> rowids_distinct d')); cbv beta;
    unfold rowids_distinct.
  - auto.
  - auto.
  - intros n t d0 (H1&H2&H3&H4&H5&H6&H7); unfold update_last_login; simpl.
    rewrite map_update_last_login; auto 7.
  - intros n pw ud t d0 id d' E (H1&H2&H3&H4&H5&H6&H7).
    unfold insert_user in E; destruct (user_exists n d0); [discriminate|].
    injection E as _ <-; simpl; repeat split; try assumption; next_rowid_goal.
  - intros n e uid d0 d' E (H1&H2&H3&H4&H5&H6&H7).
    unfold insert_guest in E; destruct (foreign_keys && _); [discriminate|].
    injection E as <-; simpl; repeat split; try assumption; next_rowid_goal.
  - intros n d0 (H1&H2&H3&H4&H5&H6&H7); unfold delete_users, foreign_keys; simpl.
    repeat split; try assumption; apply NoDup_map_filter; assumption.
  - intros n l d0 (H1&H2&H3&H4&H5&H6&H7); simpl.
    repeat split; try assumption; next_rowid_goal.
  - intros n ty hid d0 d' E (H1&H2&H3&H4&H5&H6&H7).
    unfold insert_room in E; destruct (foreign_keys && _); [discriminate|].
    injection E as <-; simpl; repeat split; try assumption; next_rowid_goal.
  - intros g r dt d0 d' E (H1&H2&H3&H4&H5&H6&H7).
    unfold insert_stay in E; destruct (foreign_keys && _); [discriminate|].
    injection E as <-; simpl; repeat split; try assumption; next_rowid_goal.
  - intros g r dt d0 (H1&H2&H3&H4&H5&H6&H7); unfold update_checkout; simpl.
    rewrite map_update_checkout; auto 7.
  - intros u fd t d0 d' E (H1&H2&H3&H4&H5&H6&H7).
    unfold insert_feedback in E; destruct (feedback_checks _); [|discriminate].
    destruct (foreign_keys && _); [discriminate|].
    injection E as <-; simpl; repeat split; try assumption; next_rowid_goal.
  - intros t a det d0 (H1&H2&H3&H4&H5&H6&H7); simpl.
    repeat split; try assumption; next_rowid_goal.
  - intros d0 (H1&H2&H3&H4&H5&H6&H7); simpl.
    repeat split; try assumption; constructor.
Qed.

(** ** Stays *)

(** [checkout_guest(guest_id, room_id, date)] returns True, keeps the
    number of stay rows, closes with [date] every open stay of that guest
    in that room (so none stays open), and leaves every other stay row and
    every other table unchanged. *)
Theorem checkout_guest_effect (guest_id room_id : nat) (date : string) (d : db) :
  exists d', checkout_guest guest_id room_id date d = Returned true d' /\
    length (stays_in_room d') = length (stays_in_room d) /\
    (forall s, In s (stays_in_room d') -> s_guest_id s = guest_id -> s_room_id s = room_id ->
               s_check_out_date s <> None) /\
    (forall s, In s (stays_in_room d) -> s_guest_id s = guest_id -> s_room_id s = room_id ->
               s_check_out_date s = None ->
               In (mkStay (s_id s) guest_id room_id (s_check_in_date s) (Some date))
                  (stays_in_room d')) /\
    (forall s, In s (stays_in_room d) ->
               s_guest_id s <> guest_id \/ s_room_id s <> room_id \/ s_check_out_date s <> None ->
               In s (stays_in_room d')) /\
    users d' = users d /\ hostels d' = hostels d /\ rooms d' = rooms d /\
    guests d' = guests d /\ feedbacks d' = feedbacks d /\ admin_logs d' = admin_logs d.
Proof.
  eexists; split; [reflexivity|]; unfold update_checkout; simpl.
  split; [apply length_map|].
  split; [|split; [|split; [|repeat split]]].
  - intros s' Hin Hg Hr; apply in_map_iff in Hin as [s [Hs Hin]]; subst s'.
    destruct (s_check_out_date s) eqn:Eo; [rewrite Eo; discriminate|].
    destruct (Nat.eqb (s_guest_id s) guest_id && Nat.eqb (s_room_id s) room_id) eqn:E;
      simpl; [discriminate|].
    rewrite Hg, Hr, !Nat.eqb_refl in E; discriminate.
  - intros s Hin Hg Hr Ho; apply in_map_iff; exists s; split; [|exact Hin].
    rewrite Ho, Hg, Hr, !Nat.eqb_refl; reflexivity.
  - intros s Hin Hne; apply in_map_iff; exists s; split; [|exact Hin].
    destruct (s_check_out_date s) eqn:Eo; [reflexivity|].
    destruct (Nat.eqb (s_guest_id s) guest_id) eqn:Eg; [|reflexivity].
    destruct (Nat.eqb (s_room_id s) room_id) eqn:Er; [|reflexivity].
    apply Nat.eqb_eq in Eg; apply Nat.eqb_eq in Er.
    exfalso; destruct Hne as [H|[H|H]]; contradiction.
Qed.

(** [assign_room_to_guest(guest_id, room_id, date)] returns True and
    appends exactly one open stay with a fresh rowid, changing nothing
    else.  It does not look at the guest's other stays: a guest who
    already has an open stay then has two. *)
Theorem assign_room_appends_open_stay (guest_id room_id : nat) (date : string) (d : db) :
  exists d', assign_room_to_guest guest_id room_id date d = Returned true d' /\
    stays_in_room d' = stays_in_room d ++
      [mkStay (next_rowid (map s_id (stays_in_room d))) guest_id room_id date None] /\
    ~ In (next_rowid (map s_id (stays_in_room d))) (map s_id (stays_in_room d)) /\
    length (open_stays_of guest_id (stays_in_room d')) =
      S (length (open_stays_of guest_id (stays_in_room d))) /\
    users d' = users d /\ hostels d' = hostels d /\ rooms d' = rooms d /\
    guests d' = guests d /\ feedbacks d' = feedbacks d /\ admin_logs d' = admin_logs d.
Proof.
  eexists; split; [reflexivity|]; simpl.
  split; [reflexivity|]; split; [apply next_rowid_fresh|].
  split; [|repeat split].
  unfold open_stays_of; rewrite filter_app, length_app; simpl.
  rewrite Nat.eqb_refl; simpl; lia.
Qed.

(** ** Pages of the student *)

(** The feedback form of a logged-in student offers only the legal
    ratings and mess types; with such values [feedback_page] thanks the
    student and the store gains exactly the row for the current user,
    with a fresh rowid. *)
Theorem feedback_page_accepts_form (sess : session) (u : string) (fd : feedback_data)
  (now : nat) (d : db)
  (Hlogged : logged_in sess = true) (Huser : current_user sess = Some u)
  (Hh : In (fd_hostel_rating fd) rating_values) (Hmt : In (fd_mess_type fd) mess_type_values)
  (Hm : In (fd_mess_rating fd) rating_values) (Hb : In (fd_bathroom_rating fd) rating_values) :
  feedback_page sess fd now d =
  Returned "Thank you for your feedback!" (set_feedbacks d (feedbacks d ++ [feedback_row u fd now d])) /\
  ~ In (fb_id (feedback_row u fd now d)) (map fb_id (feedbacks d)).
Proof.
  assert (Hc : feedback_checks (feedback_row u fd now d) = true)
    by (apply feedback_checks_spec; simpl; tauto).
  split; [|apply next_rowid_fresh].
  unfold feedback_page; rewrite Hlogged, Huser; simpl.
  unfold submit_feedback, with_connection, insert_feedback; rewrite Hc; reflexivity.
Qed.

Lemma existsb_empty_spec (l : list string) : existsb (String.eqb "") l = true <-> In "" l.
Proof.
  rewrite existsb_exists; split.
  - intros [x [Hin E]]; apply String.eqb_eq in E; subst; exact Hin.
  - intros Hin; exists ""; split; [exact Hin | reflexivity].
Qed.

(** [register_page]: an empty field gives "Please fill in all fields!",
    then differing passwords give "Passwords don't match!", then a taken
    username gives "Username already exists", all with the store
    unchanged; otherwise the student is registered and told
    "Registration successful Please login.". *)
Theorem register_page_outcomes (h : string -> string)
  (full_name username reg_number room_number email password confirm_pass : string)
  (now : nat) (d : db) :
  let fields := [full_name; username; reg_number; room_number; email; password; confirm_pass] in
  let page := register_page h full_name username reg_number room_number email password
                confirm_pass now d in
  (In "" fields -> page = Returned "Please fill in all fields!" d) /\
  (~ In "" fields -> password <> confirm_pass -> page = Returned "Passwords don't match!" d) /\
  (~ In "" fields -> password = confirm_pass ->
   (exists r, In r (users d) /\ u_username r = username) ->
   page = Returned "Username already exists" d) /\
  (~ In "" fields -> password = confirm_pass ->
   (~ exists r, In r (users d) /\ u_username r = username) ->
   exists d', page = Returned "Registration successful Please login." d' /\
              get_user_count d' = S (get_user_count d)).
Proof.
  intros fields page; subst fields page; unfold register_page.
  split; [|split; [|split]].
  - intros Hin; apply existsb_empty_spec in Hin; rewrite Hin; reflexivity.
  - intros Hin Hne; destruct (existsb _ _) eqn:E;
      [apply existsb_empty_spec in E; contradiction|].
    apply String.eqb_neq in Hne; rewrite Hne; reflexivity.
  - intros Hin Heq Hex; destruct (existsb _ _) eqn:E;
      [apply existsb_empty_spec in E; contradiction|].
    subst; rewrite String.eqb_refl; simpl.
    apply user_exists_spec in Hex.
    unfold register_user, with_connection; rewrite Hex; reflexivity.
  - intros Hin Heq Hfresh; destruct (existsb _ _) eqn:E;
      [apply existsb_empty_spec in E; contradiction|].
    subst; rewrite String.eqb_refl; simpl.
    assert (Ex : user_exists username d = false).
    { destruct (user_exists username d) eqn:Ex; [|reflexivity].
      exfalso; apply Hfresh, user_exists_spec, Ex. }
    rewrite register_user_fresh_eq by exact Ex; simpl.
    eexists; split; [reflexivity|].
    unfold get_user_count; simpl; rewrite length_app; simpl; lia.
Qed.

(** ** Logins and admin pages *)

(** The student login form never changes the admin flag of the session:
    on success the session is logged in as that username, on failure it
    is left as it was and "Invalid credentials" is shown. *)
Theorem student_login_keeps_admin_flag (h : string -> string) (username password : string)
  (now : nat) (sess : session) (d : db) :
  exists msg sess' d', student_login h username password now sess d = Returned (msg, sess') d' /\
    is_admin sess' = is_admin sess /\
    ((msg = "Login successful!" /\ logged_in sess' = true /\ current_user sess' = Some username) \/
     (msg = "Invalid credentials" /\ sess' = sess /\ d' = d)).
Proof.
  unfold student_login, authenticate_user, with_connection.
  destruct (select_user_password username (h password) d); simpl; do 3 eexists;
    (split; [reflexivity|]); split; try reflexivity; [left | right]; repeat split.
Qed.

(** The admin login form grants admin rights exactly for the username
    "hostel_admin" with a password whose digest is that of the built-in
    password, whatever the users table holds; success appends one
    ADMIN_LOGIN entry to the log, failure changes neither the store nor
    the session. *)
Theorem admin_login_effect (h : string -> string) (admin_user admin_pass : string)
  (now : nat) (sess : session) (d : db) :
  (admin_user = "hostel_admin" /\ h admin_pass = h "Soumya@1234" ->
   admin_login h admin_user admin_pass now sess d =
   (mkSession true (Some "admin") true,
    Returned "Admin access granted!" (set_logs d (admin_logs d ++
      [mkLog (next_rowid (map l_id (admin_logs d))) now "ADMIN_LOGIN" ""])))) /\
  (~ (admin_user = "hostel_admin" /\ h admin_pass = h "Soumya@1234") ->
   admin_login h admin_user admin_pass now sess d = (sess, Returned "Invalid admin credentials" d)).
Proof.
  unfold admin_login, authenticate_admin, ADMIN_USERNAME, ADMIN_PASSWORD_HASH; split.
  - intros [-> Hp]; rewrite Hp, !String.eqb_refl; reflexivity.
  - intros Hn.
    destruct (String.eqb admin_user "hostel_admin") eqn:E1; [|reflexivity].
    destruct (String.eqb (h admin_pass) (h "Soumya@1234")) eqn:E2; [|reflexivity].
    apply String.eqb_eq in E1; apply String.eqb_eq in E2; tauto.
Qed.

(** The System Logs page records nothing when it is only viewed, nor
    when the log is empty, whoever opens it; when the admin clears a
    non-empty log, the log afterwards holds exactly one entry,
    LOGS_CLEARED, with rowid 1, and no other table changes. *)
Theorem system_logs_clear (now : nat) (sess : session) (d : db) :
  (forall clear_click sess', clear_click = false \/ admin_logs d = [] ->
     exists o, system_logs clear_click now sess' d = Returned o d) /\
  (is_admin sess = true -> admin_logs d <> [] ->
   system_logs true now sess d =
   Returned Rendered (set_logs d [mkLog 1 now "LOGS_CLEARED" "All system logs cleared"])).
Proof.
  unfold system_logs; split.
  - intros c sess' Hc; destruct (is_admin sess'); cbn [negb];
      [|eexists; reflexivity].
    destruct (admin_logs d) eqn:E; [eexists; reflexivity|].
    destruct Hc as [->|Hc]; [eexists; reflexivity|discriminate].
  - intros Hadmin Hne; rewrite Hadmin; simpl.
    destruct (admin_logs d) eqn:E; [contradiction|reflexivity].
Qed.

(** Deleting a listed user from the User Management page removes that
    user's rows from the users table and appends the two log entries
    VIEWED_USER_MANAGEMENT and USER_DELETION ("Deleted user: <name>");
    feedback, guests and stays are left as they were. *)
Theorem user_manager_delete (now : nat) (sess : session) (u : string) (d : db)
  (Hadmin : is_admin sess = true)
  (Hlisted : exists r, In r (users d) /\ u_username r = u) :
  exists d', user_manager (Some u) now sess d = Returned Rendered d' /\
    (forall r, In r (users d') <-> In r (users d) /\ u_username r <> u) /\
    map l_action (admin_logs d') = map l_action (admin_logs d) ++
                                   ["VIEWED_USER_MANAGEMENT"; "USER_DELETION"] /\
    map l_details (admin_logs d') = map l_details (admin_logs d) ++
                                    [""; ("Deleted user: " ++ u)%string] /\
    feedbacks d' = feedbacks d /\ guests d' = guests d /\
    stays_in_room d' = stays_in_room d /\ hostels d' = hostels d /\ rooms d' = rooms d.
Proof.
  assert (Hm : member u (map u_username (users d)) = true).
  { apply member_spec; destruct Hlisted as [r [Hin Hu]]; subst; apply in_map; exact Hin. }
  unfold user_manager; rewrite Hadmin; cbn [negb].
  unfold py_seq at 1, log_admin_action at 1, with_connection at 1; simpl.
  destruct (map u_username (users d)) as [|x xs] eqn:Em; [discriminate|].
  rewrite Hm; simpl.
  eexists; split; [reflexivity|]; simpl.
  split.
  - intros r; rewrite filter_In, negb_true_iff, String.eqb_neq; tauto.
  - rewrite !map_app; simpl; rewrite <- !app_assoc; repeat split; reflexivity.
Qed.

(** Each of the four feedback report pages, opened by the admin, appends
    exactly one log entry, named after the page, and changes nothing
    else. *)
Theorem feedback_reports_log_view (now : nat) (sess : session) (d : db)
  (Hadmin : is_admin sess = true) :
  forall req action,
    In (req, action) [(HostelFeedbackViewer, "VIEWED_HOSTEL_FEEDBACK");
                      (MessFeedbackViewer, "VIEWED_MESS_FEEDBACK");
                      (BathroomFeedbackViewer, "VIEWED_BATHROOM_FEEDBACK");
                      (FeedbackViewer, "VIEWED_ALL_FEEDBACK")] ->
    admin_page req now sess d =
    Returned Rendered (set_logs d (admin_logs d ++
      [mkLog (next_rowid (map l_id (admin_logs d))) now action ""])).
Proof.
  intros req action Hin.
  destruct Hin as [E|[E|[E|[E|[]]]]]; injection E as <- <-; simpl;
    unfold viewer_page; rewrite Hadmin; reflexivity.
Qed.

(** ** Rating statistics *)

Lemma insert_group_In (x y : string) (l : list string) :
  In y (insert_group x l) <-> y = x \/ In y l.
Proof.
  induction l as [|a l IH]; simpl; [intuition congruence|].
  unfold text_compare; destruct (OrdersEx.String_as_OT.compare_spec x a) as [E|E|E].
  - subst; simpl; intuition congruence.
  - simpl; intuition congruence.
  - simpl; unfold text_compare in IH; rewrite IH; intuition congruence.
Qed.

Lemma group_keys_In (y : string) (l : list string) : In y (group_keys l) <-> In y l.
Proof.
  induction l as [|a l IH]; simpl; [tauto|].
  rewrite insert_group_In, IH; intuition congruence.
Qed.

Lemma insert_group_sorted (x : string) (l : list string) :
  StronglySorted OrdersEx.String_as_OT.lt l ->
  StronglySorted OrdersEx.String_as_OT.lt (insert_group x l).
Proof.
  induction l as [|a l IH]; intros Hs; simpl.
  - constructor; [constructor | constructor].
  - inversion Hs as [|a' l' Hl Ha]; subst.
    unfold text_compare; destruct (OrdersEx.String_as_OT.compare_spec x a) as [E|E|E].
    + exact Hs.
    + constructor; [exact Hs|]; constructor; [exact E|].
      eapply Forall_impl; [|exact Ha]; intros z Hz.
      eapply OrdersEx.String_as_OT.lt_strorder; eassumption.
    + constructor; [exact (IH Hl)|].
      apply Forall_forall; intros z Hz; unfold text_compare in Hz.
      apply (insert_group_In x z l) in Hz; destruct Hz as [->|Hz]; [exact E|].
      rewrite Forall_forall in Ha; auto.
Qed.

Lemma group_keys_sorted (l : list string) :
  StronglySorted OrdersEx.String_as_OT.lt (group_keys l).
Proof.
  induction l as [|a l IH]; simpl; [constructor|]; apply insert_group_sorted, IH.
Qed.

Lemma sorted_lt_NoDup (l : list string) :
  StronglySorted OrdersEx.String_as_OT.lt l -> NoDup l.
Proof.
  induction 1 as [|a l Hs IH Ha]; constructor; [|exact IH].
  intros Hin; rewrite Forall_forall in Ha; apply Ha in Hin.
  destruct OrdersEx.String_as_OT.lt_strorder as [Hirr _]; exact (Hirr a Hin).
Qed.

Lemma list_sum_map_add {A : Type} (f g : A -> nat) (l : list A) :
  list_sum (map (fun x => f x + g x) l) = list_sum (map f l) + list_sum (map g l).
Proof. induction l as [|a l IH]; simpl; [reflexivity|]; rewrite IH; lia. Qed.

Lemma list_sum_indicator (v : string) (keys : list string) :
  NoDup keys ->
  list_sum (map (fun r => if String.eqb v r then 1 else 0) keys) =
  if existsb (String.eqb v) keys then 1 else 0.
Proof.
  induction 1 as [|a l Hn Hd IH]; simpl; [reflexivity|].
  destruct (String.eqb v a) eqn:E; simpl.
  - apply String.eqb_eq in E; subst.
    destruct (existsb (String.eqb a) l) eqn:E2 in IH.
    + apply existsb_exists in E2; destruct E2 as [z [Hz Ez]].
      apply String.eqb_eq in Ez; subst; contradiction.
    + rewrite IH; reflexivity.
  - exact IH.
Qed.

Lemma sum_counts (k : rating_type) (keys : list string) (fs : list feedback) :
  NoDup keys ->
  list_sum (map (fun r => count_rating k r fs) keys) =
  length (filter (fun f => existsb (String.eqb (rating_column k f)) keys) fs).
Proof.
  intros Hd; induction fs as [|f fs IH]; simpl.
  - induction keys; simpl; [reflexivity|]; inversion Hd; auto.
  - unfold count_rating at 1; simpl.
    transitivity (list_sum (map (fun r => (if String.eqb (rating_column k f) r then 1 else 0)
                                          + count_rating k r fs) keys)).
    { f_equal; apply map_ext; intros r; destruct (String.eqb (rating_column k f) r); reflexivity. }
    rewrite list_sum_map_add, IH, list_sum_indicator by exact Hd.
    destruct (existsb (String.eqb (rating_column k f)) keys); reflexivity.
Qed.

Lemma filter_all_true {A : Type} (p : A -> bool) (l : list A) :
  (forall x, In x l -> p x = true) -> filter p l = l.
Proof.
  induction l as [|a l IH]; intros H; simpl; [reflexivity|].
  rewrite (H a (or_introl eq_refl)), IH; auto; intros x Hx; apply H; right; exact Hx.
Qed.

Lemma rating_keys_NoDup (k : rating_type) (d : db) :
  NoDup (map fst (get_rating_statistics k d)).
Proof.
  unfold get_rating_statistics; rewrite map_map; simpl; rewrite map_id.
  apply sorted_lt_NoDup, group_keys_sorted.
Qed.

(** [get_rating_statistics] lists each distinct rating value once, in
    ascending order of the text; each count is positive and is the
    number of feedback rows with that value, every row's value appears,
    and the counts add up to [get_feedback_count]. *)
Theorem rating_statistics_props (k : rating_type) (d : db) :
  StronglySorted (fun a b => text_compare a b = Lt) (map fst (get_rating_statistics k d)) /\
  NoDup (map fst (get_rating_statistics k d)) /\
  (forall r c, In (r, c) (get_rating_statistics k d) ->
     c = count_rating k r (feedbacks d) /\ 1 <= c) /\
  (forall f, In f (feedbacks d) -> In (rating_column k f) (map fst (get_rating_statistics k d))) /\
  list_sum (map snd (get_rating_statistics k d)) = get_feedback_count d.
Proof.
  unfold get_rating_statistics.
  rewrite map_map; simpl; rewrite map_id.
  pose proof (group_keys_sorted (map (rating_column k) (feedbacks d))) as Hs.
  split; [|split; [|split; [|split]]].
  - exact Hs.
  - apply sorted_lt_NoDup, Hs.
  - intros r c Hin; apply in_map_iff in Hin; destruct Hin as [x [E Hx]].
    injection E as <- <-; split; [reflexivity|].
    apply group_keys_In, in_map_iff in Hx; destruct Hx as [f [Ef Hf]].
    unfold count_rating.
    destruct (filter (fun g => String.eqb (rating_column k g) x) (feedbacks d)) eqn:E.
    + assert (Hin : In f (filter (fun g => String.eqb (rating_column k g) x) (feedbacks d))).
      { apply filter_In; split; [exact Hf | apply String.eqb_eq, Ef]. }
      rewrite E in Hin; destruct Hin.
    + simpl; lia.
  - intros f Hf; apply group_keys_In, in_map; exact Hf.
  - rewrite map_map; simpl.
    rewrite sum_counts by (apply sorted_lt_NoDup, Hs).
    unfold get_feedback_count; f_equal.
    apply filter_all_true; intros f Hf.
    apply existsb_exists; exists (rating_column k f); split; [|apply String.eqb_refl].
    apply group_keys_In, in_map; exact Hf.
Qed.

(** Starting from a store whose feedback rows satisfy the CHECK
    constraints (such as the one [initialize_database] creates), after
    any run of the program's store-changing calls the rating statistics
    only report values of ('A','B','C','D','E'), hence at most five
    rows. *)
Theorem rating_statistics_within_check (h : string -> string) (ops : list op)
  (k : rating_type) (d : db) (Hvalid : feedback_valid d) :
  (forall r c, In (r, c) (get_rating_statistics k (run_ops h ops d)) -> In r rating_values) /\
  length (get_rating_statistics k (run_ops h ops d)) <= 5.
Proof.
  pose proof (run_ops_feedback_valid h ops d Hvalid) as Hv.
  assert (Hk : forall r, In r (map fst (get_rating_statistics k (run_ops h ops d))) ->
                         In r rating_values).
  { unfold get_rating_statistics; rewrite map_map; simpl; rewrite map_id.
    intros r Hr; apply group_keys_In, in_map_iff in Hr; destruct Hr as [f [<- Hf]].
    destruct (Hv f Hf) as [H1 [_ [H3 H4]]]; destruct k; assumption. }
  split.
  - intros r c Hin; apply Hk; apply in_map_iff; exists (r, c); split; [reflexivity | exact Hin].
  - rewrite <- (length_map fst).
    change 5 with (length rating_values).
    apply NoDup_incl_length; [|exact Hk].
    apply rating_keys_NoDup.
Qed.

(** ** Hostels and rooms *)

(** [add_hostel] and [add_room] never fail: each returns True and appends
    one row with a fresh rowid.  The room row keeps the given hostel_id
    whether or not a hostel with that id exists, and hostel names may
    repeat. *)
Theorem add_hostel_room_never_fail (name location room_number room_type : string)
  (hostel_id : nat) (d : db) :
  add_hostel name location d =
    Returned true (set_hostels d (hostels d ++
      [mkHostel (next_rowid (map h_id (hostels d))) name location])) /\
  ~ In (next_rowid (map h_id (hostels d))) (map h_id (hostels d)) /\
  add_room room_number room_type hostel_id d =
    Returned true (set_rooms d (rooms d ++
      [mkRoom (next_rowid (map r_id (rooms d))) room_number room_type (Some hostel_id)])) /\
  ~ In (next_rowid (map r_id (rooms d))) (map r_id (rooms d)).
Proof.
  split; [reflexivity|]; split; [apply next_rowid_fresh|].
  split; [reflexivity | apply next_rowid_fresh].
Qed.

(** ** Runs of the properties on concrete stores *)

Ltac nodup_nat := repeat (constructor; [simpl; lia|]); constructor.

(** carol is not registered in alice's store, so her registration goes
    through. *)
Lemma register_user_fresh_witness :
  (~ exists r, In r (users alice_store) /\ u_username r = "carol") /\
  exists d', register_user demo_hash "carol" "pw777" bob_data 5 alice_store =
             Returned (true, "Registration successful") d'.
Proof.
  assert (Hf : ~ exists r, In r (users alice_store) /\ u_username r = "carol").
  { intros H; apply user_exists_spec in H; vm_compute in H; discriminate. }
  split; [exact Hf|].
  destruct (register_user_fresh demo_hash "carol" "pw777" bob_data 5 alice_store Hf)
    as [d' [E _]].
  exists d'; exact E.
Defined.

Lemma register_then_login_witness :
  register_user demo_hash "carol" "pw777" bob_data 5 alice_store =
    Returned (true, "Registration successful")
      (store_of (register_user demo_hash "carol" "pw777" bob_data 5 alice_store)) /\
  exists d2, authenticate_user demo_hash "carol" "pw777" 6
               (store_of (register_user demo_hash "carol" "pw777" bob_data 5 alice_store)) =
             Returned true d2.
Proof.
  split; [vm_compute; reflexivity|].
  apply (register_then_login demo_hash "carol" "pw777" bob_data 5 6 alice_store _
           "Registration successful").
  vm_compute; reflexivity.
Defined.

(** In bob's store the users table is empty and bob's guest row still
    carries user_id 1: carol's registration takes id 1. *)
Lemma register_reuses_user_id_witness :
  users bob_store = [] /\
  register_user demo_hash "carol" "pw777" alice_data 3 bob_store =
    Returned (true, "Registration successful")
      (store_of (register_user demo_hash "carol" "pw777" alice_data 3 bob_store)) /\
  exists r, users (store_of (register_user demo_hash "carol" "pw777" alice_data 3 bob_store)) = [r] /\
            u_id r = 1.
Proof.
  assert (He : users bob_store = []) by (vm_compute; reflexivity).
  assert (Hr : register_user demo_hash "carol" "pw777" alice_data 3 bob_store =
    Returned (true, "Registration successful")
      (store_of (register_user demo_hash "carol" "pw777" alice_data 3 bob_store)))
    by (vm_compute; reflexivity).
  split; [exact He|]; split; [exact Hr|].
  destruct (register_reuses_user_id demo_hash "carol" "pw777" alice_data 3 bob_store _ _ He Hr)
    as [r [E1 [E2 _]]].
  exists r; split; assumption.
Defined.

(** Two registrations of the same username leave one users row with it. *)
Lemma usernames_stay_unique_witness :
  NoDup (map u_username (users initial_db)) /\
  NoDup (map u_username (users (run_ops demo_hash
    [OpRegister "alice" "secret1" alice_data 1; OpRegister "alice" "other" bob_data 2]
    initial_db))).
Proof.
  split; [constructor|].
  apply usernames_stay_unique; constructor.
Defined.

Lemma rowids_stay_distinct_witness :
  rowids_distinct initial_db /\ rowids_distinct alice_store.
Proof.
  assert (H : rowids_distinct initial_db).
  { unfold rowids_distinct; simpl; repeat split; nodup_nat. }
  split; [exact H|].
  exact (rowids_stay_distinct demo_hash
           [OpRegister "alice" "secret1" alice_data 1;
            OpSubmitFeedback "alice" sample_feedback 2;
            OpAssignRoom 1 1 "2026-01-05"] initial_db H).
Defined.

Lemma feedback_page_accepts_form_witness :
  logged_in student_session = true /\ current_user student_session = Some "alice" /\
  feedback_page student_session sample_feedback 5 alice_store =
  Returned "Thank you for your feedback!"
    (set_feedbacks alice_store (feedbacks alice_store ++
       [feedback_row "alice" sample_feedback 5 alice_store])).
Proof.
  split; [reflexivity|]; split; [reflexivity|].
  apply (feedback_page_accepts_form student_session "alice" sample_feedback 5 alice_store
           eq_refl eq_refl); apply member_spec; reflexivity.
Defined.

(** After the admin has viewed the feedback report, the log is not
    empty and clearing it leaves the single LOGS_CLEARED entry. *)
Lemma system_logs_clear_witness :
  is_admin admin_session = true /\
  admin_logs (store_of (admin_page FeedbackViewer 3 admin_session alice_store)) <> [] /\
  system_logs true 4 admin_session (store_of (admin_page FeedbackViewer 3 admin_session alice_store)) =
  Returned Rendered (set_logs (store_of (admin_page FeedbackViewer 3 admin_session alice_store))
                      [mkLog 1 4 "LOGS_CLEARED" "All system logs cleared"]).
Proof.
  assert (Hne : admin_logs (store_of (admin_page FeedbackViewer 3 admin_session alice_store)) <> [])
    by (vm_compute; discriminate).
  split; [reflexivity|]; split; [exact Hne|].
  exact (proj2 (system_logs_clear 4 admin_session _) eq_refl Hne).
Defined.

Lemma user_manager_delete_witness :
  is_admin admin_session = true /\
  (exists r, In r (users alice_store) /\ u_username r = "alice") /\
  exists d', user_manager (Some "alice") 3 admin_session alice_store = Returned Rendered d' /\
             feedbacks d' = feedbacks alice_store.
Proof.
  assert (Hl : exists r, In r (users alice_store) /\ u_username r = "alice")
    by (apply user_exists_spec; vm_compute; reflexivity).
  split; [reflexivity|]; split; [exact Hl|].
  destruct (user_manager_delete 3 admin_session "alice" alice_store eq_refl Hl)
    as [d' [E [_ [_ [_ [Ef _]]]]]].
  exists d'; split; assumption.
Defined.

Lemma feedback_reports_log_view_witness :
  is_admin admin_session = true /\
  admin_page MessFeedbackViewer 3 admin_session alice_store =
  Returned Rendered (set_logs alice_store (admin_logs alice_store ++
    [mkLog (next_rowid (map l_id (admin_logs alice_store))) 3 "VIEWED_MESS_FEEDBACK" ""])).
Proof.
  split; [reflexivity|].
  apply (feedback_reports_log_view 3 admin_session alice_store eq_refl).
  right; left; reflexivity.
Defined.

Lemma rating_statistics_within_check_witness :
  feedback_valid initial_db /\
  length (get_rating_statistics RatingMess alice_store) <= 5.
Proof.
  assert (Hv : feedback_valid initial_db) by (intros f []).
  split; [exact Hv|].
  exact (proj2 (rating_statistics_within_check demo_hash
           [OpRegister "alice" "secret1" alice_data 1;
            OpSubmitFeedback "alice" sample_feedback 2;
            OpAssignRoom 1 1 "2026-01-05"] RatingMess initial_db Hv)).
Defined.
